(** * Regional sentiment aggregation: [get_geographical_trends]

    A shallow embedding of the endpoint [get_geographical_trends] of
    [src/backend/main.py], from the point where the list under the
    ["sentiment"] key of the snapshot has been loaded (a list of JSON
    objects, whose members may be of any JSON type), together with the
    Python builtins it relies on ([float], [round], dictionaries keyed by
    JSON values, IEEE binary64 arithmetic).  The definitions come first,
    module by module; the lemmas and the theorems follow. *)

From Stdlib Require Import ZArith List String Ascii Bool Lia QArith.
From Stdlib Require Import Permutation.
From Stdlib Require Import Floats.PrimFloat Floats.SpecFloat Floats.FloatOps.
Import ListNotations.

Set Warnings "-inexact-float,-register-all".

(** ** Python values and builtins *)

Module Py.

Local Open Scope Z_scope.

(** What [json.load] produces: [None], [bool], [int], [float], [str],
    [list] and [dict].  Strings are kept as their UTF-8 bytes. *)
Inductive json : Type :=
| JNull
| JBool (b : bool)
| JInt (z : Z)
| JFloat (f : float)
| JStr (s : string)
| JArr (l : list json)
| JObj (l : list (string * json)).

(** The exceptions that can occur; [HTTPException] carries the status code
    and the exception it was built from (the source formats its message into
    the [detail] text). *)
Inductive exn : Type :=
| TypeError
| ValueError
| OverflowError
| KeyError
| ZeroDivisionError
| HTTPException (status_code : Z) (cause : exn).

Inductive outcome (A : Type) : Type :=
| Ok (a : A)
| Raise (e : exn).
Arguments Ok {A} a.
Arguments Raise {A} e.

(** *** Numbers *)

(** A Python number as the routine meets them: the literal [0] of the
    unreachable branch is an [int], every other one is a [float]. *)
Inductive pynum : Type :=
| PyInt (z : Z)
| PyFloat (f : float).

(** The double nearest to [num / den] (ties to even) with sign [s]. *)
Definition nearest_float (s : bool) (num den : positive) : float :=
  SF2Prim (SFdiv prec emax (S754_finite s num 0) (S754_finite false den 0)).

(** The double nearest to the integer [z] (ties to even). *)
Definition Z2float (z : Z) : float :=
  SF2Prim (binary_normalize prec emax z 0 false).

(** Integers of magnitude [2^1024 - 2^970] and more round to [2^1024]. *)
Definition float_max_int : Z := 2 ^ 1024 - 2 ^ 970.

(** [float(z)] for an [int], also the conversion of an [int] operand of a
    mixed operation: [None] where Python raises [OverflowError]. *)
Definition float_of_int (z : Z) : option float :=
  if Z.abs z <? float_max_int then Some (Z2float z) else None.

(** [num / den] rounded to the nearest integer, ties to the even one
    ([den > 0]). *)
Definition round_half_even (num den : Z) : Z :=
  let q := num / den in
  let r := num mod den in
  match 2 * r ?= den with
  | Lt => q
  | Gt => q + 1
  | Eq => if Z.even q then q else q + 1
  end.

(** [round(x, 2)] on a [float]: the exact value of [x] is rounded to two
    decimal places, ties to even, and the decimal obtained is converted back
    to the nearest double; NaN and the infinities round to themselves and the
    sign of [x] is kept. *)
Definition py_round2 (x : float) : float :=
  match Prim2SF x with
  | S754_finite s m e =>
      let n := if 0 <=? e
               then Z.pos m * 2 ^ e * 100
               else round_half_even (Z.pos m * 100) (2 ^ (- e)) in
      match n with
      | Z.pos p => nearest_float s p 100
      | _ => if s then neg_zero else zero
      end
  | _ => x
  end.

(** [round(v, 2)] on a number: an [int] is returned as it is. *)
Definition py_round (v : pynum) : pynum :=
  match v with
  | PyInt z => PyInt z
  | PyFloat f => PyFloat (py_round2 f)
  end.

(** [total / count] with a [float] on the left and an [int] on the right. *)
Definition float_truediv (total : float) (count : Z) : outcome float :=
  match float_of_int count with
  | None => Raise OverflowError
  | Some c => if count =? 0 then Raise ZeroDivisionError else Ok (total / c)%float
  end.

(** *** [float] of a string, ASCII grammar

    [[sign] (digits [. digits] | . digits) [(e|E) [sign] digits]], or
    [[sign] (inf | infinity | nan)] in any case, between optional white
    space, with single underscores allowed between digits. *)

Definition is_space (c : ascii) : bool :=
  let n := Z.of_nat (nat_of_ascii c) in
  (n =? 32) || ((9 <=? n) && (n <=? 13)).

Definition digit_of (c : ascii) : option Z :=
  let n := Z.of_nat (nat_of_ascii c) in
  if (48 <=? n) && (n <=? 57) then Some (n - 48) else None.

Definition is_digit (c : ascii) : bool :=
  match digit_of c with Some _ => true | None => false end.

Definition lower (c : ascii) : ascii :=
  let n := nat_of_ascii c in
  if ((65 <=? n) && (n <=? 90))%nat then ascii_of_nat (n + 32) else c.

Fixpoint lstrip (l : list ascii) : list ascii :=
  match l with
  | c :: t => if is_space c then lstrip t else l
  | [] => []
  end.

(** Trailing white space is removed while more than one character is left. *)
Fixpoint rstrip_rev (r : list ascii) : list ascii :=
  match r with
  | c :: (_ :: _) as t => if is_space c then rstrip_rev t else r
  | _ => r
  end.

Definition underscore : ascii := "_"%char.

(** Removes the underscores; [None] when one does not stand between two
    digits.  [prev] is the character before [l]. *)
Fixpoint drop_underscores (prev : ascii) (l : list ascii) : option (list ascii) :=
  match l with
  | [] => if Ascii.eqb prev underscore then None else Some []
  | c :: t =>
      if Ascii.eqb c underscore then
        if is_digit prev then drop_underscores c t else None
      else if Ascii.eqb prev underscore && negb (is_digit c) then None
      else option_map (cons c) (drop_underscores c t)
  end.

(** Reads a run of digits: its value after [acc], how many there were, and
    what follows. *)
Fixpoint read_digits (l : list ascii) (acc : Z) (n : Z) : Z * Z * list ascii :=
  match l with
  | c :: t =>
      match digit_of c with
      | Some d => read_digits t (10 * acc + d) (n + 1)
      | None => (acc, n, l)
      end
  | [] => (acc, n, [])
  end.

Definition read_sign (l : list ascii) : bool * list ascii :=
  match l with
  | "-"%char :: t => (true, t)
  | "+"%char :: t => (false, t)
  | _ => (false, l)
  end.

(** The double nearest to [m * 10 ^ e]; beyond [10 ^ 310] the result is an
    infinity and below [10 ^ -340] a zero, whatever the digits. *)
Definition decimal_to_float (s : bool) (m ndigits e : Z) : float :=
  match m with
  | Z.pos p =>
      if 310 <? e then (if s then neg_infinity else infinity)
      else if ndigits + e <? -340 then (if s then neg_zero else zero)
      else if 0 <=? e then Z2float ((if s then -1 else 1) * (m * 10 ^ e))
      else nearest_float s p (Z.to_pos (10 ^ (- e)))
  | _ => if s then neg_zero else zero
  end.

Definition read_exponent (l : list ascii) : option Z :=
  match l with
  | [] => Some 0
  | c :: t =>
      if Ascii.eqb (lower c) "e"%char then
        let (neg, t') := read_sign t in
        match read_digits t' 0 0 with
        | (x, n, []) => if 0 <? n then Some (if neg then - x else x) else None
        | _ => None
        end
      else None
  end.

Definition read_number (s : bool) (l : list ascii) : option float :=
  let '(ip, ni, r1) := read_digits l 0 0 in
  let '(m, nf, r2) :=
    match r1 with
    | "."%char :: t => read_digits t ip 0
    | _ => (ip, 0, r1)
    end in
  if 0 <? ni + nf then
    match read_exponent r2 with
    | Some x => Some (decimal_to_float s m (ni + nf) (x - nf))
    | None => None
    end
  else None.

Definition read_inf_nan (s : bool) (l : list ascii) : option float :=
  let w := string_of_list_ascii (map lower l) in
  if (String.eqb w "inf" || String.eqb w "infinity")%string
  then Some (if s then neg_infinity else infinity)
  else if String.eqb w "nan" then Some nan
  else None.

(** [float(s)] for a string of ASCII characters; [None] is [ValueError]. *)
Definition float_of_ascii (str : string) : option float :=
  match lstrip (list_ascii_of_string str) with
  | [] => None
  | l =>
      match drop_underscores Ascii.zero (rev (rstrip_rev (rev l))) with
      | None => None
      | Some l' =>
          let (s, r) := read_sign l' in
          match read_number s r with
          | Some f => Some f
          | None => read_inf_nan s r
          end
      end
  end.

(** *** [float] of a JSON value *)

Section Coercion.

(** [float] applied to a [str]; [None] where it raises [ValueError].  It is
    a parameter of the development: [float_of_ascii] is the instance for
    ASCII text. *)
Variable float_of_str : string -> option float.

(** [float(v)]: numbers and booleans convert, strings are parsed, anything
    else is a [TypeError]. *)
Definition py_float (v : json) : outcome float :=
  match v with
  | JFloat f => Ok f
  | JInt z =>
      match float_of_int z with
      | Some f => Ok f
      | None => Raise OverflowError
      end
  | JBool b => Ok (if b then one else zero)
  | JStr s =>
      match float_of_str s with
      | Some f => Ok f
      | None => Raise ValueError
      end
  | JNull | JArr _ | JObj _ => Raise TypeError
  end.

End Coercion.

(** *** Dictionaries *)

(** A JSON object as the list of its members, in the order of the text;
    where a name is repeated [json.load] keeps the last value. *)
Definition record : Type := list (string * json).

(** [d.get(key, default)] *)
Fixpoint dict_get (d : record) (key : string) (default : json) : json :=
  match d with
  | [] => default
  | (k, v) :: t => dict_get t key (if String.eqb k key then v else default)
  end.

(** Lists and dictionaries cannot be keys of a dictionary. *)
Definition hashable (k : json) : bool :=
  match k with
  | JArr _ | JObj _ => false
  | _ => true
  end.

(** The class of a key under [==]: numbers and booleans compare by exact
    value ([True == 1 == 1.0], [0 == -0.0]), strings by their characters,
    [None] equals itself only, and the one NaN object that [json] hands out
    is found again by identity.  Lists and dictionaries never get as far as
    a comparison; they share a class of their own. *)
Inductive key_class : Type :=
| KNone
| KStr (s : string)
| KNum (q : Q)
| KInf (negative : bool)
| KNan
| KUnhashable.

(** The exact value [(-1)^s * m * 2^e], in lowest terms. *)
Definition finite_value (s : bool) (m : positive) (e : Z) : Q :=
  let n := if s then Z.neg m else Z.pos m in
  Qred (if 0 <=? e then (n * 2 ^ e) # 1 else n # Z.to_pos (2 ^ (- e))).

Definition key_norm (k : json) : key_class :=
  match k with
  | JNull => KNone
  | JStr s => KStr s
  | JBool b => KNum ((if b then 1 else 0) # 1)
  | JInt z => KNum (z # 1)
  | JFloat f =>
      match Prim2SF f with
      | S754_zero _ => KNum (0 # 1)
      | S754_finite s m e => KNum (finite_value s m e)
      | S754_infinity s => KInf s
      | S754_nan => KNan
      end
  | JArr _ | JObj _ => KUnhashable
  end.

Definition key_class_eq_dec (a b : key_class) : {a = b} + {a <> b}.
Proof.
  decide equality.
  - apply string_dec.
  - destruct q as [n d], q0 as [n' d'].
    destruct (Z.eq_dec n n') as [->|Hn]; [|right; congruence].
    destruct (Pos.eq_dec d d') as [->|Hd]; [left; reflexivity|right; congruence].
  - apply bool_dec.
Defined.

(** Whether two keys are the same key of a dictionary. *)
Definition same_key (a b : json) : bool :=
  if key_class_eq_dec (key_norm a) (key_norm b) then true else false.

End Py.

(** ** Insertion-ordered dictionaries keyed by JSON values *)

Module Dict.

Import Py.

(** A Python [dict] as the list of its items in insertion order; no two
    items have the same key. *)
Definition dict (A : Type) : Type := list (json * A).

Section Ops.

Context {A : Type}.

Fixpoint find (k : json) (d : dict A) : option A :=
  match d with
  | [] => None
  | (k', v) :: t => if same_key k' k then Some v else find k t
  end.

Definition mem (k : json) (d : dict A) : bool :=
  match find k d with Some _ => true | None => false end.

(** A new key goes to the end; an existing one keeps its place and its
    first key object and only gets the new value. *)
Fixpoint store (k : json) (v : A) (d : dict A) : dict A :=
  match d with
  | [] => [(k, v)]
  | (k', v') :: t =>
      if same_key k' k then (k', v) :: t else (k', v') :: store k v t
  end.

Definition keys (d : dict A) : list json := map fst d.

(** [k in d] *)
Definition contains (k : json) (d : dict A) : outcome bool :=
  if hashable k then Ok (mem k d) else Raise TypeError.

(** [d[k]] *)
Definition getitem (k : json) (d : dict A) : outcome A :=
  if hashable k then
    match find k d with
    | Some v => Ok v
    | None => Raise KeyError
    end
  else Raise TypeError.

(** [d[k] = v] *)
Definition setitem (k : json) (v : A) (d : dict A) : outcome (dict A) :=
  if hashable k then Ok (store k v d) else Raise TypeError.

(** [d.get(k, default)] *)
Definition get (k : json) (default : A) (d : dict A) : outcome A :=
  if hashable k then
    match find k d with
    | Some v => Ok v
    | None => Ok default
    end
  else Raise TypeError.

End Ops.

(** A dictionary literal with string keys. *)
Definition literal {A : Type} (items : list (string * A)) : dict A :=
  fold_left (fun d kv => store (JStr (fst kv)) (snd kv) d) items [].

End Dict.

(** ** The endpoint *)

Module Geo.

Import Py.
Local Open Scope Z_scope.
Local Open Scope string_scope.

(** The value kept per region: [{'total_sentiment': .., 'count': ..}].  The
    total is created as the [int] [0] and a [float] is added to it at once,
    which computes [0.0 + sentiment]; it is kept as a [float] from the
    start. *)
Record aggregate : Type := {
  total_sentiment : float;
  count : Z
}.

(** An entry of a city table: [{'lat': .., 'lon': ..}]. *)
Record coords : Type := {
  lat : float;
  lon : float
}.

(** The two shapes of an output entry; the ['type'] field tells them
    apart. *)
Inductive geo_result : Type :=
| CityResult (region : json) (lat lon : float) (sentiment : pynum) (count : Z)
| CountryResult (region : json) (country_code : string) (sentiment : pynum)
    (count : Z).

Definition entry_region (e : geo_result) : json :=
  match e with
  | CityResult r _ _ _ _ => r
  | CountryResult r _ _ _ => r
  end.

Definition entry_type (e : geo_result) : string :=
  match e with
  | CityResult _ _ _ _ _ => "city"
  | CountryResult _ _ _ _ => "country"
  end.

Definition entry_sentiment (e : geo_result) : pynum :=
  match e with
  | CityResult _ _ _ s _ => s
  | CountryResult _ _ s _ => s
  end.

Definition entry_count (e : geo_result) : Z :=
  match e with
  | CityResult _ _ _ _ c => c
  | CountryResult _ _ _ c => c
  end.

Definition entry_country_code (e : geo_result) : option string :=
  match e with
  | CityResult _ _ _ _ _ => None
  | CountryResult _ code _ _ => Some code
  end.

Definition entry_coords (e : geo_result) : option (float * float) :=
  match e with
  | CityResult _ la lo _ _ => Some (la, lo)
  | CountryResult _ _ _ _ => None
  end.

(** *** The fixed tables *)

Definition country_codes : Dict.dict string :=
  Dict.literal
    [("United States", "USA");
     ("United Kingdom", "GBR");
     ("India", "IND");
     ("Canada", "CAN");
     ("Australia", "AUS");
     ("Germany", "DEU");
     ("France", "FRA");
     ("Japan", "JPN");
     ("South Korea", "KOR");
     ("Brazil", "BRA")].

Definition location_coords : Dict.dict coords :=
  Dict.literal
    [("New York", {| lat := 40.7128; lon := -74.0060 |});
     ("Los Angeles", {| lat := 34.0522; lon := -118.2437 |});
     ("Chicago", {| lat := 41.8781; lon := -87.6298 |});
     ("London", {| lat := 51.5074; lon := -0.1278 |});
     ("Paris", {| lat := 48.8566; lon := 2.3522 |});
     ("Berlin", {| lat := 52.5200; lon := 13.4050 |});
     ("Tokyo", {| lat := 35.6762; lon := 139.6503 |});
     ("Sydney", {| lat := -33.8688; lon := 151.2093 |});
     ("Toronto", {| lat := 43.6532; lon := -79.3832 |});
     ("Mumbai", {| lat := 19.0760; lon := 72.8777 |});
     ("Delhi", {| lat := 28.7041; lon := 77.1025 |});
     ("Bangalore", {| lat := 12.9716; lon := 77.5946 |});
     ("Seoul", {| lat := 37.5665; lon := 126.9780 |});
     ("São Paulo", {| lat := -23.5505; lon := -46.6333 |});
     ("Rio de Janeiro", {| lat := -22.9068; lon := -43.1729 |})].

(** *** State and exceptions

    A call works on the list it was handed, [sentiment_data], and on two
    objects it builds and updates in place, [region_sentiment] and
    [geographical_data].  A computation takes the three, returns a value or
    raises, and leaves the three behind. *)

Record frame : Type := {
  sentiment_data : list record;
  region_sentiment : Dict.dict aggregate;
  geographical_data : list geo_result
}.

Definition M (A : Type) : Type := frame -> outcome A * frame.

Definition ret {A : Type} (a : A) : M A := fun st => (Ok a, st).

Definition bind {A B : Type} (m : M A) (k : A -> M B) : M B :=
  fun st =>
    match m st with
    | (Ok a, st') => k a st'
    | (Raise e, st') => (Raise e, st')
    end.

Definition raise {A : Type} (e : exn) : M A := fun st => (Raise e, st).

(** The value of an expression that may raise. *)
Definition eval {A : Type} (o : outcome A) : M A := fun st => (o, st).

(** [try: m  except Exception as e: handler e] *)
Definition try_except {A : Type} (m : M A) (handler : exn -> M A) : M A :=
  fun st =>
    match m st with
    | (Ok a, st') => (Ok a, st')
    | (Raise e, st') => handler e st'
    end.

Declare Scope py_scope.
Delimit Scope py_scope with py.
Notation "x <- m ;; k" := (bind m (fun x => k))
  (at level 61, m at next level, right associativity) : py_scope.
Notation "m ;; k" := (bind m (fun _ => k))
  (at level 61, right associativity) : py_scope.
Local Open Scope py_scope.

(** [for x in l: body x] *)
Fixpoint for_each {A : Type} (l : list A) (body : A -> M unit) : M unit :=
  match l with
  | [] => ret tt
  | x :: t => body x ;; for_each t body
  end.

Definition read {A : Type} (field : frame -> A) : M A :=
  fun st => (Ok (field st), st).

Definition set_region_sentiment (st : frame) (d : Dict.dict aggregate) : frame :=
  {| sentiment_data := sentiment_data st;
     region_sentiment := d;
     geographical_data := geographical_data st |}.

Definition set_geographical_data (st : frame) (l : list geo_result) : frame :=
  {| sentiment_data := sentiment_data st;
     region_sentiment := region_sentiment st;
     geographical_data := l |}.

Definition assign_region_sentiment (d : Dict.dict aggregate) : M unit :=
  fun st => (Ok tt, set_region_sentiment st d).

Definition assign_geographical_data (l : list geo_result) : M unit :=
  fun st => (Ok tt, set_geographical_data st l).

(** [region_sentiment[region] = v] *)
Definition region_sentiment_setitem (region : json) (v : aggregate) : M unit :=
  d <- read region_sentiment ;;
  d' <- eval (Dict.setitem region v d) ;;
  assign_region_sentiment d'.

(** [geographical_data.append(e)] *)
Definition geographical_data_append (e : geo_result) : M unit :=
  l <- read geographical_data ;;
  assign_geographical_data (l ++ [e]).

(** *** The routine *)

Section Routine.

Variable float_of_str : string -> option float.

(** Line 121: [item.get('region', 'Unknown')]. *)
Definition item_region (item : record) : json :=
  dict_get item "region" (JStr "Unknown").

(** Line 122: [float(item.get('sentiment', 0))]. *)
Definition item_sentiment (item : record) : outcome float :=
  py_float float_of_str (dict_get item "sentiment" (JInt 0)).

(** The body of the first loop, lines 121 to 126. *)
Definition grouping_body (item : record) : M unit :=
  let region := item_region item in
  sentiment <- eval (item_sentiment item) ;;
  d <- read region_sentiment ;;
  present <- eval (Dict.contains region d) ;;
  (if negb present
   then region_sentiment_setitem region {| total_sentiment := zero; count := 0 |}
   else ret tt) ;;
  d <- read region_sentiment ;;
  values <- eval (Dict.getitem region d) ;;
  region_sentiment_setitem region
    {| total_sentiment := total_sentiment values + sentiment;
       count := count values |} ;;
  d <- read region_sentiment ;;
  values <- eval (Dict.getitem region d) ;;
  region_sentiment_setitem region
    {| total_sentiment := total_sentiment values;
       count := count values + 1 |}.

(** Lines 119 to 126. *)
Definition grouping_pass : M unit :=
  assign_region_sentiment [] ;;
  items <- read sentiment_data ;;
  for_each items grouping_body.

(** Line 163: [total / count if count > 0 else 0]. *)
Definition avg_sentiment (values : aggregate) : outcome pynum :=
  if (0 <? count values)%Z then
    match float_truediv (total_sentiment values) (count values) with
    | Ok x => Ok (PyFloat x)
    | Raise e => Raise e
    end
  else Ok (PyInt 0).

(** Lines 166 to 185 for tables [cities] and [countries]: the entry for
    [region]. *)
Definition make_result (cities : Dict.dict coords) (countries : Dict.dict string)
    (region : json) (avg : pynum) (n : Z) : outcome geo_result :=
  match Dict.contains region cities with
  | Raise e => Raise e
  | Ok true =>
      match Dict.getitem region cities with
      | Raise e => Raise e
      | Ok c => Ok (CityResult region (lat c) (lon c) (py_round avg) n)
      end
  | Ok false =>
      match Dict.get region "" countries with
      | Raise e => Raise e
      | Ok country_code => Ok (CountryResult region country_code (py_round avg) n)
      end
  end.

(** The body of the second loop, lines 163 to 185. *)
Definition result_body (kv : json * aggregate) : M unit :=
  let (region, values) := kv in
  avg <- eval (avg_sentiment values) ;;
  e <- eval (make_result location_coords country_codes region avg (count values)) ;;
  geographical_data_append e.

(** Lines 129 and 162 to 185. *)
Definition result_pass : M unit :=
  assign_geographical_data [] ;;
  items <- read region_sentiment ;;
  for_each items result_body.

(** Lines 107 to 189, after the snapshot has been read. *)
Definition get_geographical_trends : M (list geo_result) :=
  try_except
    (grouping_pass ;;
     result_pass ;;
     read geographical_data)
    (fun e => raise (HTTPException 500 e)).

(** *** Vocabulary of the specification *)

(** A record the first loop gets past: its sentiment converts and its region
    can be a key. *)
Definition record_ok (item : record) : Prop :=
  (exists s, item_sentiment item = Ok s) /\ hashable (item_region item) = true.

(** The sentiment values of the records grouped under the key [k], in the
    order of the input. *)
Fixpoint region_sentiments (k : json) (items : list record) : list float :=
  match items with
  | [] => []
  | item :: t =>
      match item_sentiment item with
      | Ok s =>
          if same_key (item_region item) k
          then s :: region_sentiments k t
          else region_sentiments k t
      | Raise _ => region_sentiments k t
      end
  end.

(** What the dictionary holds for a region with the sentiment values [ss]:
    their sum from left to right, and how many they are. *)
Definition aggregate_of (ss : list float) : aggregate :=
  {| total_sentiment := fold_left PrimFloat.add ss zero;
     count := Z.of_nat (List.length ss) |}.

(** *** The two loops as functions *)

(** One round of the first loop on the dictionary. *)
Definition upsert (d : Dict.dict aggregate) (k : json) (s : float)
  : Dict.dict aggregate :=
  match Dict.find k d with
  | Some v =>
      Dict.store k {| total_sentiment := total_sentiment v + s;
                      count := count v + 1 |} d
  | None => Dict.store k {| total_sentiment := zero + s; count := 1 |} d
  end.

(** The first loop on the dictionary: how it ends and what the
    dictionary holds then. *)
Fixpoint group_loop (d : Dict.dict aggregate) (items : list record)
  : outcome unit * Dict.dict aggregate :=
  match items with
  | [] => (Ok tt, d)
  | item :: t =>
      match item_sentiment item with
      | Raise e => (Raise e, d)
      | Ok s =>
          if hashable (item_region item)
          then group_loop (upsert d (item_region item) s) t
          else (Raise TypeError, d)
      end
  end.

(** One round of the second loop: the entry appended. *)
Definition entry_of (kv : json * aggregate) : outcome geo_result :=
  match avg_sentiment (snd kv) with
  | Raise e => Raise e
  | Ok avg => make_result location_coords country_codes (fst kv) avg (count (snd kv))
  end.

(** The second loop on the list of entries. *)
Fixpoint result_loop (acc : list geo_result) (entries : list (json * aggregate))
  : outcome unit * list geo_result :=
  match entries with
  | [] => (Ok tt, acc)
  | kv :: t =>
      match entry_of kv with
      | Raise e => (Raise e, acc)
      | Ok e => result_loop (acc ++ [e]) t
      end
  end.

End Routine.

(** [sum(ss)]: the values added from left to right, starting from zero. *)
Definition py_sum (ss : list float) : float := fold_left PrimFloat.add ss zero.

(** The labels of [l] without repetition, each at the place of its first
    occurrence. *)
Fixpoint first_occurrences (l : list json) : list json :=
  match l with
  | [] => []
  | k :: t => k :: filter (fun k' => negb (same_key k k')) (first_occurrences t)
  end.

(** The label of a record when a region that is [null] is read as
    ["Unknown"] too, which the routine does not do. *)
Definition null_as_unknown (item : record) : json :=
  match item_region item with
  | JNull => JStr "Unknown"
  | r => r
  end.

(** The number of distinct labels of the input, for a way [label] of
    reading the label of a record; labels are distinct when they are
    different keys. *)
Definition distinct_labels (label : record -> json) (items : list record) : nat :=
  List.length (nodup key_class_eq_dec (map (fun item => key_norm (label item)) items)).

(** The number of distinct region labels of the input. *)
Definition distinct_regions (items : list record) : nat :=
  distinct_labels item_region items.

(** The bound of CPython on the length of a list, [sys.maxsize]. *)
Definition PY_SSIZE_T_MAX : Z := 2 ^ 63 - 1.

(** The sum of the [count] fields of the entries. *)
Definition sum_counts (out : list geo_result) : Z :=
  fold_right Z.add 0 (map entry_count out).

(** Two records of region ["Germany"] with the sentiment values [0.5] and
    [-0.3]. *)
Definition germany_records : list record :=
  [[("region", JStr "Germany"); ("sentiment", JFloat 0.5)];
   [("region", JStr "Germany"); ("sentiment", JFloat (-0.3))]].

(** Five records: two of a city, one without a region, one whose sentiment
    is a string, one without a sentiment, one whose region is [null]. *)
Definition sample_records : list record :=
  [[("region", JStr "Toronto"); ("sentiment", JFloat 0.5)];
   [("sentiment", JFloat 0.8)];
   [("region", JStr "Germany"); ("sentiment", JStr "0.25")];
   [("region", JStr "Toronto")];
   [("region", JNull); ("sentiment", JInt 1)]].

(** A record whose sentiment is not a number, after a well-formed one. *)
Definition malformed_records : list record :=
  [[("region", JStr "Germany"); ("sentiment", JFloat 0.5)];
   [("region", JStr "France"); ("sentiment", JStr "abc")]].

(** A record whose region is [null] and one whose region is empty. *)
Definition blank_region_records : list record :=
  [[("region", JNull); ("sentiment", JFloat 0.8)];
   [("region", JStr ""); ("sentiment", JFloat 0.8)]].

(** What a call on [sample_records] returns. *)
Definition sample_output : list geo_result :=
  [CityResult (JStr "Toronto") 43.6532 (-79.3832) (PyFloat 0.25) 2;
   CountryResult (JStr "Unknown") "" (PyFloat 0.8) 1;
   CountryResult (JStr "Germany") "DEU" (PyFloat 0.25) 1;
   CountryResult JNull "" (PyFloat 1) 1].

(** A record whose region is [null] and one without a region. *)
Definition null_and_missing_records : list record :=
  [[("region", JNull); ("sentiment", JFloat 0.8)];
   [("sentiment", JFloat 0.8)]].

(** A call on the list [items]. *)
Definition fresh (items : list record) : frame :=
  {| sentiment_data := items; region_sentiment := []; geographical_data := [] |}.

End Geo.

(** ** The endpoints, from the data directory to the response *)

Module Api.

Import Py Geo.
Local Open Scope string_scope.

(** *** Failures *)

(** What [open] and [json.load] can raise. *)
Inductive file_error : Type :=
| OSError
| JSONDecodeError.

(** What can be raised inside the [try] of an endpoint: an exception of the
    builtins of [Py], an [AttributeError] for [.get] on a value that is not
    a dictionary, a [ValidationError] of the response model, or a failure to
    read the snapshot. *)
Inductive cause : Type :=
| Builtin (e : exn)
| AttributeError
| ValidationError
| File (e : file_error).

(** The result of the body of a [try]. *)
Inductive attempt (A : Type) : Type :=
| Done (a : A)
| Threw (c : cause).
Arguments Done {A} a.
Arguments Threw {A} c.

(** What the caller of an endpoint gets: the value returned, or the
    [HTTPException] with its status code and what it was built from. *)
Inductive reply (A : Type) : Type :=
| Returned (a : A)
| HTTPError (status_code : Z) (detail : cause).
Arguments Returned {A} a.
Arguments HTTPError {A} status_code detail.

(** [except Exception as e: raise HTTPException(status_code=500, ...)] *)
Definition handle {A : Type} (body : attempt A) : reply A :=
  match body with
  | Done a => Returned a
  | Threw c => HTTPError 500 c
  end.

Definition and_then {A B : Type} (x : attempt A) (k : A -> attempt B) : attempt B :=
  match x with
  | Done a => k a
  | Threw c => Threw c
  end.

Definition of_outcome {A : Type} (o : outcome A) : attempt A :=
  match o with
  | Ok a => Done a
  | Raise e => Threw (Builtin e)
  end.

(** *** The data directory *)

(** The directory [data]: the names of its entries, in the order the
    system lists them (none when the directory is missing), and what
    [open] followed by [json.load] gives for a path. *)
Inductive file_result : Type :=
| Parsed (data : json)
| Unreadable (e : file_error).

Record data_dir : Type := {
  listing : list string;
  content : string -> file_result
}.

(** [s] without the prefix [p], when it has it. *)
Fixpoint strip_prefix (p s : string) : option string :=
  match p, s with
  | EmptyString, _ => Some s
  | String a p', String b s' => if Ascii.eqb a b then strip_prefix p' s' else None
  | String _ _, EmptyString => None
  end.

Fixpoint ends_with (suffix s : string) : bool :=
  String.eqb s suffix ||
  match s with
  | EmptyString => false
  | String _ t => ends_with suffix t
  end.

(** Whether a name matches the pattern [processed_data_*.json]. *)
Definition matches (name : string) : bool :=
  match strip_prefix "processed_data_" name with
  | Some rest => ends_with ".json" rest
  | None => false
  end.

(** [glob.glob("data/processed_data_*.json")] *)
Definition glob (names : list string) : list string :=
  map (String.append "data/") (filter matches names).

(** [max] of a non-empty list of strings: the first of the greatest. *)
Definition py_max (first : string) (rest : list string) : string :=
  fold_left (fun m x => if String.ltb m x then x else m) rest first.

(** Lines 42 to 48, the same in the four endpoints: [None] when there is no
    snapshot, otherwise the parsed content of the latest one. *)
Definition load_latest (env : data_dir) : attempt (option json) :=
  match glob (listing env) with
  | [] => Done None
  | f :: fs =>
      match content env (py_max f fs) with
      | Parsed data => Done (Some data)
      | Unreadable e => Threw (File e)
      end
  end.

(** *** Reading the snapshot *)

(** [data.get(key, [])] *)
Definition data_get (data : json) (key : string) : attempt json :=
  match data with
  | JObj members => Done (dict_get members key (JArr []))
  | _ => Threw AttributeError
  end.

(** The keys of the dictionary made from the members of an object, in the
    order of insertion. *)
Fixpoint dict_keys (members : record) : list string :=
  match members with
  | [] => []
  | (k, _) :: t => k :: filter (fun k' => negb (String.eqb k' k)) (dict_keys t)
  end.

Definition is_continuation (c : ascii) : bool :=
  let n := nat_of_ascii c in ((128 <=? n) && (n <? 192))%nat.

(** The characters of a string, each with the bytes of its UTF-8 form. *)
Fixpoint utf8_chars (s : string) : list string :=
  match s with
  | EmptyString => []
  | String c t =>
      match utf8_chars t with
      | String c' g :: gs =>
          if is_continuation c'
          then String c (String c' g) :: gs
          else String c EmptyString :: String c' g :: gs
      | gs => String c EmptyString :: gs
      end
  end.

(** What [for item in v] goes through: the elements of a list, the keys
    of a dictionary, the characters of a string; other values are not
    iterable. *)
Definition py_iter (v : json) : attempt (list json) :=
  match v with
  | JArr l => Done l
  | JObj members => Done (map JStr (dict_keys members))
  | JStr s => Done (map JStr (utf8_chars s))
  | JNull | JBool _ | JInt _ | JFloat _ => Threw (Builtin TypeError)
  end.

(** [if region:] for the optional query parameter. *)
Definition truthy (region : option string) : bool :=
  match region with
  | Some r => negb (String.eqb r "")
  | None => false
  end.

(** [item.get('region') == region] for an object with the members
    [members]. *)
Definition has_region (region : string) (members : record) : bool :=
  match dict_get members "region" JNull with
  | JStr s => String.eqb s region
  | _ => false
  end.

(** [[item for item in items if item.get('region') == region]] *)
Fixpoint filter_region (region : string) (items : list json) : attempt (list json) :=
  match items with
  | [] => Done []
  | JObj members :: t =>
      and_then (filter_region region t)
        (fun l => Done (if has_region region members then JObj members :: l else l))
  | _ :: _ => Threw AttributeError
  end.

(** Lines 72 to 78 and 94 to 100: the value under [key], narrowed to a
    region when one is given. *)
Definition select (data : json) (key : string) (region : option string)
  : attempt json :=
  and_then (data_get data key) (fun v =>
  match region with
  | Some r =>
      if truthy region
      then and_then (py_iter v) (fun items =>
           and_then (filter_region r items) (fun l => Done (JArr l)))
      else Done v
  | None => Done v
  end).

(** Lines 61 to 80. *)
Definition get_sentiment_trends (env : data_dir) (region : option string)
  : reply json :=
  handle
    (and_then (load_latest env) (fun latest =>
     match latest with
     | None => Done (JArr [])
     | Some data => select data "sentiment" region
     end)).

(** Lines 83 to 102. *)
Definition get_temporal_trends (env : data_dir) (region : option string)
  : reply json :=
  handle
    (and_then (load_latest env) (fun latest =>
     match latest with
     | None => Done (JArr [])
     | Some data => select data "temporal" region
     end)).

(** *** Popularity *)

(** The response model of [/trends/popularity]. *)
Record TrendData : Type := {
  platform : string;
  trend : string;
  mentions : Z;
  avg_volume : float;
  max_volume : float
}.

Section Popularity.

(** [TrendData] built from the members of a dictionary as keyword
    arguments: the validation of the model, a parameter of the development;
    [None] where it raises [ValidationError]. *)
Variable validate : record -> option TrendData.

(** [TrendData] built from an item: only a mapping can be unpacked into
    keyword arguments. *)
Definition trend_data (item : json) : attempt TrendData :=
  match item with
  | JObj members =>
      match validate members with
      | Some t => Done t
      | None => Threw ValidationError
      end
  | _ => Threw (Builtin TypeError)
  end.

(** The list comprehension of line 56: every item in turn. *)
Fixpoint trend_data_list (items : list json) : attempt (list TrendData) :=
  match items with
  | [] => Done []
  | item :: t =>
      and_then (trend_data item) (fun x =>
      and_then (trend_data_list t) (fun l => Done (x :: l)))
  end.

(** Lines 38 to 58. *)
Definition get_popularity_trends (env : data_dir) (region : option string)
  : reply (list TrendData) :=
  handle
    (and_then (load_latest env) (fun latest =>
     match latest with
     | None => Done []
     | Some data =>
         and_then (select data "popularity" region) (fun v =>
         and_then (py_iter v) trend_data_list)
     end)).

End Popularity.

(** *** The geographical endpoint from the start *)

(** The computations of the endpoint: those of [Geo.M], with the wider
    range of failures. *)
Definition E (A : Type) : Type := frame -> attempt A * frame.

Definition lift {A : Type} (m : M A) : E A :=
  fun st => (of_outcome (fst (m st)), snd (m st)).

Definition throw {A : Type} (c : cause) : E A := fun st => (Threw c, st).

Fixpoint for_each_item (items : list json) (body : json -> E unit) : E unit :=
  match items with
  | [] => fun st => (Done tt, st)
  | item :: t =>
      fun st =>
        match body item st with
        | (Done _, st') => for_each_item t body st'
        | (Threw c, st') => (Threw c, st')
        end
  end.

Section Geographical.

Variable float_of_str : string -> option float.

(** Lines 121 to 126 for an element of the list: [item.get] needs a
    dictionary. *)
Definition grouping_item (item : json) : E unit :=
  match item with
  | JObj members => lift (grouping_body float_of_str members)
  | _ => throw AttributeError
  end.

(** Lines 116 to 187 on the parsed snapshot.  The value under
    ["sentiment"] stays in the variable [sentiment_data] of the source and is
    only iterated; the two objects the loops update are those of the
    frame, whose own [sentiment_data] is not read here. *)
Definition aggregate_snapshot (data : json) : attempt (list geo_result) :=
  and_then (data_get data "sentiment") (fun sentiment_value =>
  let st0 := snd (assign_region_sentiment [] (fresh [])) in
  and_then (py_iter sentiment_value) (fun items =>
  match for_each_item items grouping_item st0 with
  | (Threw c, _) => Threw c
  | (Done _, st1) =>
      match lift result_pass st1 with
      | (Threw c, _) => Threw c
      | (Done _, st2) => Done (geographical_data st2)
      end
  end)).

(** Lines 105 to 189. *)
Definition geographical_endpoint (env : data_dir) : reply (list geo_result) :=
  handle
    (and_then (load_latest env) (fun latest =>
     match latest with
     | None => Done []
     | Some data => aggregate_snapshot data
     end)).

End Geographical.

(** *** Vocabulary *)

(** The records of a list of objects. *)
Definition objects (records : list record) : list json := map JObj records.

(** Whether a value is an object. *)
Definition is_object (v : json) : bool :=
  match v with
  | JObj _ => true
  | _ => false
  end.

(** The records of the input whose region is the key [k]. *)
Definition records_of (k : json) (items : list record) : list record :=
  filter (fun item => same_key (item_region item) k) items.

(** Whether a value is one that cannot be iterated. *)
Definition is_scalar (v : json) : bool :=
  match v with
  | JNull | JBool _ | JInt _ | JFloat _ => true
  | _ => false
  end.

(** The optional conversion of a list, element by element. *)
Fixpoint traverse {A B : Type} (f : A -> option B) (l : list A) : option (list B) :=
  match l with
  | [] => Some []
  | x :: t =>
      match f x, traverse f t with
      | Some y, Some ys => Some (y :: ys)
      | _, _ => None
      end
  end.

(** The records an endpoint keeps for a region parameter: all of them when
    the parameter is absent or empty, otherwise those of the region. *)
Definition narrowed (region : option string) (records : list record) : list record :=
  match region with
  | Some r => if truthy region then filter (has_region r) records else records
  | None => records
  end.

(** *** Sample directories *)

(** A validation for the examples: two strings, an integer and two
    numbers, under the names of the fields. *)
Definition strict_validate (m : record) : option TrendData :=
  match dict_get m "platform" JNull, dict_get m "trend" JNull,
        dict_get m "mentions" JNull with
  | JStr p, JStr t, JInt n =>
      match py_float float_of_ascii (dict_get m "avg_volume" JNull),
            py_float float_of_ascii (dict_get m "max_volume" JNull) with
      | Ok a, Ok b =>
          Some {| platform := p; trend := t; mentions := n;
                  avg_volume := a; max_volume := b |}
      | _, _ => None
      end
  | _, _, _ => None
  end.

Definition sample_popularity : list record :=
  [[("platform", JStr "twitter"); ("trend", JStr "ai"); ("mentions", JInt 120);
    ("avg_volume", JFloat 10.5); ("max_volume", JInt 40);
    ("region", JStr "Toronto")];
   [("platform", JStr "reddit"); ("trend", JStr "chips"); ("mentions", JInt 7);
    ("avg_volume", JInt 2); ("max_volume", JFloat 3.5);
    ("region", JStr "Germany")]].

(** A snapshot with a list under ["popularity"] and under ["sentiment"],
    and nothing under ["temporal"]. *)
Definition sample_snapshot : json :=
  JObj [("popularity", JArr (objects sample_popularity));
        ("sentiment", JArr (objects sample_records))].

(** A snapshot whose ["sentiment"] list has an element that is a number. *)
Definition mixed_snapshot : json :=
  JObj [("sentiment",
         JArr (objects [[("region", JStr "Toronto"); ("sentiment", JFloat 0.5)]]
               ++ [JInt 3]))].

(** A snapshot whose ["sentiment"] value is a number. *)
Definition scalar_snapshot : json := JObj [("sentiment", JInt 5)].

(** A directory with three snapshots and a file of another name; only the
    snapshot of March can be read. *)
Definition sample_dir : data_dir :=
  {| listing := ["processed_data_20240101.json"; "notes.txt";
                 "processed_data_20240301.json"; "processed_data_20240201.json"];
     content := fun path =>
       if String.eqb path "data/processed_data_20240301.json"
       then Parsed sample_snapshot
       else Unreadable OSError |}.

Definition mixed_dir : data_dir :=
  {| listing := ["processed_data_1.json"];
     content := fun _ => Parsed mixed_snapshot |}.

Definition scalar_dir : data_dir :=
  {| listing := ["processed_data_1.json"];
     content := fun _ => Parsed scalar_snapshot |}.

(** A directory whose snapshot is not valid JSON. *)
Definition broken_dir : data_dir :=
  {| listing := ["processed_data_1.json"];
     content := fun _ => Unreadable JSONDecodeError |}.

(** A directory without a snapshot. *)
Definition empty_dir : data_dir :=
  {| listing := ["notes.txt"; "processed_data_1.csv"];
     content := fun _ => Unreadable OSError |}.

End Api.

(** ** Keys *)

Module KeyFacts.

Import Py.

Lemma dict_get_missing (d : record) (key : string) (default : json) :
  (forall v, ~ In (key, v) d) -> dict_get d key default = default.
Proof.
  induction d as [|[k v] t IH]; simpl; intro H; [reflexivity|].
  destruct (String.eqb k key) eqn:Ek.
  - apply String.eqb_eq in Ek. subst k. exfalso. apply (H v). left. reflexivity.
  - apply IH. intros v' Hv'. apply (H v'). right. exact Hv'.
Qed.

Lemma same_key_true (a b : json) : same_key a b = true <-> key_norm a = key_norm b.
Proof.
  unfold same_key. destruct (key_class_eq_dec (key_norm a) (key_norm b)); split; congruence.
Qed.

Lemma same_key_false (a b : json) : same_key a b = false <-> key_norm a <> key_norm b.
Proof.
  unfold same_key. destruct (key_class_eq_dec (key_norm a) (key_norm b)); split; congruence.
Qed.

Lemma same_key_refl (a : json) : same_key a a = true.
Proof. apply same_key_true. reflexivity. Qed.

Lemma same_key_sym (a b : json) : same_key a b = same_key b a.
Proof.
  destruct (same_key b a) eqn:E.
  - apply same_key_true. symmetry. apply same_key_true. exact E.
  - apply same_key_false. intro H. apply same_key_false in E. congruence.
Qed.

Lemma same_key_congr (a b c : json) :
  same_key a b = true -> same_key a c = same_key b c.
Proof.
  intro H. apply same_key_true in H. unfold same_key. rewrite H. reflexivity.
Qed.

Lemma same_key_congr_r (a b c : json) :
  same_key a b = true -> same_key c a = same_key c b.
Proof.
  intro H. rewrite (same_key_sym c a), (same_key_sym c b). apply same_key_congr. exact H.
Qed.

(** A key of the class of a string is that string. *)
Lemma key_norm_str (k : json) (s : string) : key_norm k = KStr s -> k = JStr s.
Proof.
  destruct k; simpl; try discriminate.
  - destruct (Prim2SF f); discriminate.
  - intro H. injection H as ->. reflexivity.
Qed.

Lemma key_norm_null (k : json) : key_norm k = KNone -> k = JNull.
Proof.
  destruct k; simpl; try discriminate; try reflexivity.
  destruct (Prim2SF f); discriminate.
Qed.

Lemma same_key_str (s : string) (k : json) : same_key (JStr s) k = true <-> k = JStr s.
Proof.
  rewrite same_key_true. split.
  - intro H. apply key_norm_str. symmetry. exact H.
  - intros ->. reflexivity.
Qed.

Lemma same_key_hashable (a b : json) :
  same_key a b = true -> hashable a = hashable b.
Proof.
  rewrite same_key_true.
  destruct a, b; simpl; try reflexivity; try discriminate;
    try (destruct (Prim2SF f); discriminate).
Qed.

End KeyFacts.

(** ** Stores and lookups *)

Module DictFacts.

Import Py Dict KeyFacts.

Section Facts.

Context {A : Type}.
Implicit Types (d : dict A) (k : json) (v : A).

Lemma find_same_key k k' d : same_key k k' = true -> find k d = find k' d.
Proof.
  intro H. induction d as [|[k0 v0] t IH]; simpl; [reflexivity|].
  rewrite (same_key_congr_r _ _ k0 H), IH. reflexivity.
Qed.

Lemma find_store_same k k' v d : same_key k k' = true -> find k' (store k v d) = Some v.
Proof.
  intro H. induction d as [|[k0 v0] t IH]; simpl.
  - rewrite H. reflexivity.
  - destruct (same_key k0 k) eqn:E; simpl.
    + rewrite <- (same_key_congr_r _ _ k0 H), E. reflexivity.
    + rewrite <- (same_key_congr_r _ _ k0 H), E. exact IH.
Qed.

Lemma find_store_other k k' v d : same_key k k' = false -> find k' (store k v d) = find k' d.
Proof.
  intro H. induction d as [|[k0 v0] t IH]; simpl.
  - rewrite H. reflexivity.
  - destruct (same_key k0 k) eqn:E; simpl.
    + rewrite (same_key_congr _ _ k' E), H. reflexivity.
    + rewrite IH. reflexivity.
Qed.

Lemma store_store k v v' d : store k v' (store k v d) = store k v' d.
Proof.
  induction d as [|[k0 v0] t IH]; simpl.
  - rewrite same_key_refl. reflexivity.
  - destruct (same_key k0 k) eqn:E; simpl; rewrite E; [reflexivity|].
    rewrite IH. reflexivity.
Qed.

Lemma keys_store k v d :
  keys (store k v d) = if mem k d then keys d else keys d ++ [k].
Proof.
  unfold mem, keys. induction d as [|[k0 v0] t IH]; simpl; [reflexivity|].
  destruct (same_key k0 k) eqn:E; simpl; [reflexivity|].
  rewrite IH. destruct (find k t); reflexivity.
Qed.

Lemma mem_keys k d : mem k d = existsb (fun k' => same_key k' k) (keys d).
Proof.
  unfold mem, keys. induction d as [|[k0 v0] t IH]; simpl; [reflexivity|].
  destruct (same_key k0 k); simpl; [reflexivity|exact IH].
Qed.

Lemma find_In k v d : find k d = Some v -> exists k0, In (k0, v) d /\ same_key k0 k = true.
Proof.
  induction d as [|[k0 v0] t IH]; simpl; [discriminate|].
  destruct (same_key k0 k) eqn:E.
  - intro H. injection H as ->. exists k0. auto.
  - intro H. destruct (IH H) as (k1 & Hin & Hk). exists k1. auto.
Qed.

Lemma In_find k v d :
  NoDup (map key_norm (keys d)) -> In (k, v) d -> find k d = Some v.
Proof.
  unfold keys. induction d as [|[k0 v0] t IH]; simpl; [contradiction|].
  intros Hnd [Heq|Hin].
  - injection Heq as -> ->. rewrite same_key_refl. reflexivity.
  - inversion Hnd as [|x l Hnot Hnd']; subst.
    destruct (same_key k0 k) eqn:E.
    + exfalso. apply Hnot. apply same_key_true in E. rewrite E.
      apply in_map. change k with (fst (k, v)). apply in_map. exact Hin.
    + apply IH; assumption.
Qed.

End Facts.

End DictFacts.

(** ** First occurrences *)

Module OrderFacts.

Import Py Geo KeyFacts.

Lemma existsb_filter_other (k a : json) (l : list json) :
  same_key a k = false ->
  existsb (fun k' => same_key k' k) (filter (fun k' => negb (same_key a k')) l)
  = existsb (fun k' => same_key k' k) l.
Proof.
  intro H. induction l as [|x t IH]; simpl; [reflexivity|].
  destruct (same_key a x) eqn:E; simpl.
  - rewrite IH. rewrite <- (same_key_congr _ _ k E), H. reflexivity.
  - rewrite IH. reflexivity.
Qed.

Lemma first_occurrences_existsb (k : json) (l : list json) :
  existsb (fun k' => same_key k' k) (first_occurrences l)
  = existsb (fun k' => same_key k' k) l.
Proof.
  induction l as [|a t IH]; simpl; [reflexivity|].
  destruct (same_key a k) eqn:E; simpl; [reflexivity|].
  rewrite existsb_filter_other by exact E. exact IH.
Qed.

Lemma first_occurrences_snoc (l : list json) (k : json) :
  first_occurrences (l ++ [k])
  = if existsb (fun k' => same_key k' k) l
    then first_occurrences l
    else first_occurrences l ++ [k].
Proof.
  induction l as [|a t IH]; simpl; [reflexivity|].
  rewrite IH. destruct (same_key a k) eqn:E; simpl.
  - destruct (existsb (fun k' => same_key k' k) t); [reflexivity|].
    rewrite filter_app. simpl. rewrite E. simpl. rewrite app_nil_r. reflexivity.
  - destruct (existsb (fun k' => same_key k' k) t); [reflexivity|].
    rewrite filter_app. simpl. rewrite E. reflexivity.
Qed.

Lemma first_occurrences_incl (l : list json) : incl (first_occurrences l) l.
Proof.
  induction l as [|a t IH]; simpl; [apply incl_refl|].
  intros x [->|Hx]; [left; reflexivity|].
  right. apply IH. apply filter_In in Hx. tauto.
Qed.

Lemma NoDup_classes_filter (p : json -> bool) (l : list json) :
  NoDup (map key_norm l) -> NoDup (map key_norm (filter p l)).
Proof.
  induction l as [|a t IH]; simpl; [auto|].
  intro H. inversion H as [|x l' Hnot Hnd]; subst.
  destruct (p a); simpl; [|auto].
  constructor; [|auto].
  intro Hin. apply Hnot. apply in_map_iff in Hin. destruct Hin as (y & Hy & Hin).
  apply in_map_iff. exists y. split; [exact Hy|]. apply filter_In in Hin. tauto.
Qed.

Lemma first_occurrences_NoDup (l : list json) :
  NoDup (map key_norm (first_occurrences l)).
Proof.
  induction l as [|a t IH]; simpl; [constructor|].
  constructor.
  - intro Hin. apply in_map_iff in Hin. destruct Hin as (y & Hy & Hin).
    apply filter_In in Hin. destruct Hin as [_ Hneg].
    apply negb_true_iff in Hneg. apply same_key_false in Hneg. congruence.
  - apply NoDup_classes_filter. exact IH.
Qed.

Lemma first_occurrences_classes (l : list json) (c : key_class) :
  In c (map key_norm (first_occurrences l)) <-> In c (map key_norm l).
Proof.
  split; intro H; apply in_map_iff in H; destruct H as (x & Hx & Hin); subst c.
  - apply in_map. apply first_occurrences_incl. exact Hin.
  - assert (E : existsb (fun k' => same_key k' x) l = true).
    { apply existsb_exists. exists x. split; [exact Hin|apply same_key_refl]. }
    rewrite <- first_occurrences_existsb in E. apply existsb_exists in E.
    destruct E as (y & Hy & Hk). apply same_key_true in Hk.
    rewrite <- Hk. apply in_map. exact Hy.
Qed.

Lemma first_occurrences_length (l : list json) :
  List.length (first_occurrences l)
  = List.length (nodup key_class_eq_dec (map key_norm l)).
Proof.
  rewrite <- (length_map key_norm (first_occurrences l)).
  apply Nat.le_antisymm; apply NoDup_incl_length.
  - apply first_occurrences_NoDup.
  - intros c Hc. apply nodup_In. apply first_occurrences_classes. exact Hc.
  - apply NoDup_nodup.
  - intros c Hc. apply nodup_In in Hc. apply first_occurrences_classes. exact Hc.
Qed.

End OrderFacts.

(** ** The routine *)

Module RunFacts.

Import Py Geo KeyFacts DictFacts OrderFacts.
Local Open Scope Z_scope.

Section Run.

Variable float_of_str : string -> option float.

Local Abbreviation item_sentiment := (item_sentiment float_of_str).
Local Abbreviation grouping_body := (grouping_body float_of_str).
Local Abbreviation group_loop := (group_loop float_of_str).
Local Abbreviation grouping_pass := (grouping_pass float_of_str).
Local Abbreviation get_geographical_trends := (get_geographical_trends float_of_str).
Local Abbreviation record_ok := (record_ok float_of_str).
Local Abbreviation region_sentiments := (region_sentiments float_of_str).

Lemma set_region_sentiment_twice (st : frame) (d d' : Dict.dict aggregate) :
  set_region_sentiment (set_region_sentiment st d) d' = set_region_sentiment st d'.
Proof. reflexivity. Qed.

(** One round of the first loop either raises and leaves the dictionary as
    it was, or files the sentiment under the region. *)
Lemma grouping_body_run (item : record) (st : frame) :
  grouping_body item st =
  match item_sentiment item with
  | Raise e => (Raise e, st)
  | Ok s =>
      if hashable (item_region item)
      then (Ok tt, set_region_sentiment st
                     (upsert (region_sentiment st) (item_region item) s))
      else (Raise TypeError, st)
  end.
Proof.
  unfold Geo.grouping_body, bind, eval, read, region_sentiment_setitem,
    assign_region_sentiment, ret, bind, Dict.contains, Dict.getitem, Dict.setitem,
    upsert, Dict.mem.
  destruct (item_sentiment item) as [s|e]; [|reflexivity].
  destruct (hashable (item_region item)) eqn:Hh; [|reflexivity].
  destruct (Dict.find (item_region item) (region_sentiment st)) as [v|] eqn:Hf; simpl.
  - rewrite Hf. rewrite find_store_same by apply same_key_refl.
    rewrite store_store. reflexivity.
  - rewrite find_store_same by apply same_key_refl.
    rewrite store_store, find_store_same by apply same_key_refl.
    rewrite store_store. reflexivity.
Qed.

Lemma for_each_grouping (items : list record) (st : frame) :
  for_each items grouping_body st =
  (fst (group_loop (region_sentiment st) items),
   set_region_sentiment st (snd (group_loop (region_sentiment st) items))).
Proof.
  revert st. induction items as [|item t IH]; intro st.
  - simpl. destruct st; reflexivity.
  - simpl. unfold bind. rewrite grouping_body_run.
    destruct (item_sentiment item) as [s|e]; [|destruct st; reflexivity].
    destruct (hashable (item_region item)); [|destruct st; reflexivity].
    rewrite IH. reflexivity.
Qed.

Lemma grouping_pass_run (st : frame) :
  grouping_pass st =
  (fst (group_loop [] (sentiment_data st)),
   set_region_sentiment st (snd (group_loop [] (sentiment_data st)))).
Proof.
  unfold Geo.grouping_pass, bind, assign_region_sentiment, read.
  rewrite for_each_grouping. reflexivity.
Qed.

Lemma result_body_run (kv : json * aggregate) (st : frame) :
  result_body kv st =
  match entry_of kv with
  | Raise e => (Raise e, st)
  | Ok e => (Ok tt, set_geographical_data st (geographical_data st ++ [e]))
  end.
Proof.
  destruct kv as [region values].
  unfold result_body, entry_of, bind, eval, geographical_data_append, read,
    assign_geographical_data. simpl.
  destruct (avg_sentiment values) as [avg|e]; [|reflexivity].
  destruct (make_result location_coords country_codes region avg (count values));
    reflexivity.
Qed.

Lemma for_each_result (entries : list (json * aggregate)) (st : frame) :
  for_each entries result_body st =
  (fst (result_loop (geographical_data st) entries),
   set_geographical_data st (snd (result_loop (geographical_data st) entries))).
Proof.
  revert st. induction entries as [|kv t IH]; intro st.
  - simpl. destruct st; reflexivity.
  - simpl. unfold bind. rewrite result_body_run.
    destruct (entry_of kv) as [e|e]; [|destruct st; reflexivity].
    rewrite IH. reflexivity.
Qed.

Lemma result_pass_run (st : frame) :
  result_pass st =
  (fst (result_loop [] (region_sentiment st)),
   set_geographical_data st (snd (result_loop [] (region_sentiment st)))).
Proof.
  unfold result_pass, bind, assign_geographical_data, read.
  rewrite for_each_result. reflexivity.
Qed.

(** The whole call in terms of the two loops. *)
Lemma get_geographical_trends_run (st : frame) :
  get_geographical_trends st =
  let g := group_loop [] (sentiment_data st) in
  let r := result_loop [] (snd g) in
  match fst g with
  | Raise e => (Raise (HTTPException 500 e), set_region_sentiment st (snd g))
  | Ok _ =>
      let st' := set_geographical_data (set_region_sentiment st (snd g)) (snd r) in
      match fst r with
      | Raise e => (Raise (HTTPException 500 e), st')
      | Ok _ => (Ok (snd r), st')
      end
  end.
Proof.
  unfold Geo.get_geographical_trends, try_except, bind, raise.
  rewrite grouping_pass_run.
  destruct (fst (group_loop [] (sentiment_data st))) as [[]|e] eqn:Hg;
    cbv zeta; rewrite ?Hg; [|reflexivity].
  rewrite result_pass_run. simpl.
  destruct (fst (result_loop [] (snd (group_loop [] (sentiment_data st))))) as [[]|e];
    reflexivity.
Qed.

Lemma get_geographical_trends_input (st : frame) :
  sentiment_data (snd (get_geographical_trends st)) = sentiment_data st.
Proof.
  rewrite get_geographical_trends_run. cbv zeta.
  destruct (fst (group_loop [] (sentiment_data st))); [|reflexivity].
  destruct (fst (result_loop [] (snd (group_loop [] (sentiment_data st)))));
    reflexivity.
Qed.

(** **** The first loop *)

Lemma group_loop_app (d : Dict.dict aggregate) (l1 l2 : list record) :
  group_loop d (l1 ++ l2) =
  match fst (group_loop d l1) with
  | Ok _ => group_loop (snd (group_loop d l1)) l2
  | Raise e => group_loop d l1
  end.
Proof.
  revert d. induction l1 as [|item t IH]; intro d; simpl; [reflexivity|].
  destruct (item_sentiment item) as [s|e]; [|reflexivity].
  destruct (hashable (item_region item)); [|reflexivity].
  apply IH.
Qed.

Lemma group_loop_snoc (items : list record) (item : record) (d' : Dict.dict aggregate) :
  group_loop [] (items ++ [item]) = (Ok tt, d') ->
  exists d s,
    group_loop [] items = (Ok tt, d) /\
    item_sentiment item = Ok s /\
    hashable (item_region item) = true /\
    d' = upsert d (item_region item) s.
Proof.
  rewrite group_loop_app.
  destruct (group_loop [] items) as [[[]|e] d] eqn:Hg; simpl; [|discriminate].
  destruct (item_sentiment item) as [s|e]; [|discriminate].
  destruct (hashable (item_region item)); [|discriminate].
  intro H. injection H as <-. exists d, s. auto.
Qed.

Lemma group_loop_ok (d : Dict.dict aggregate) (items : list record) :
  Forall record_ok items <-> fst (group_loop d items) = Ok tt.
Proof.
  revert d. induction items as [|item t IH]; intro d; simpl.
  - split; auto.
  - split.
    + intro H. inversion H as [|x l [[s Hs] Hh] Ht]; subst.
      rewrite Hs, Hh. apply IH. exact Ht.
    + destruct (item_sentiment item) as [s|e] eqn:Hs; [|discriminate].
      destruct (hashable (item_region item)) eqn:Hh; [|discriminate].
      intro H. constructor.
      * split; [exists s; exact Hs|exact Hh].
      * apply (IH (upsert d (item_region item) s)). exact H.
Qed.

Lemma keys_upsert (d : Dict.dict aggregate) (k : json) (s : float) :
  Dict.keys (upsert d k s) = if Dict.mem k d then Dict.keys d else Dict.keys d ++ [k].
Proof.
  unfold upsert. destruct (Dict.find k d); apply keys_store.
Qed.

Lemma find_upsert (d : Dict.dict aggregate) (k k' : json) (s : float) :
  Dict.find k' (upsert d k s) =
  if same_key k k'
  then Some match Dict.find k' d with
            | Some v => {| total_sentiment := total_sentiment v + s;
                           count := count v + 1 |}
            | None => {| total_sentiment := zero + s; count := 1 |}
            end
  else Dict.find k' d.
Proof.
  unfold upsert. destruct (same_key k k') eqn:E.
  - rewrite <- (find_same_key k k' d E).
    destruct (Dict.find k d); rewrite find_store_same by exact E; reflexivity.
  - destruct (Dict.find k d); rewrite find_store_other by exact E; reflexivity.
Qed.

(** The keys of the dictionary are the labels in the order they were first
    seen. *)
Lemma group_loop_keys (items : list record) (d : Dict.dict aggregate) :
  group_loop [] items = (Ok tt, d) ->
  Dict.keys d = first_occurrences (map item_region items).
Proof.
  revert d. induction items as [|item items IH] using rev_ind; intros d' H.
  - injection H as <-. reflexivity.
  - apply group_loop_snoc in H. destruct H as (d & s & Hg & _ & _ & ->).
    rewrite keys_upsert, map_app.
    change (map item_region [item]) with [item_region item].
    rewrite first_occurrences_snoc.
    rewrite mem_keys, (IH d Hg), first_occurrences_existsb.
    destruct (existsb _ _); reflexivity.
Qed.

Lemma region_sentiments_snoc (k : json) (items : list record) (item : record) (s : float) :
  item_sentiment item = Ok s ->
  region_sentiments k (items ++ [item]) =
  region_sentiments k items ++ (if same_key (item_region item) k then [s] else []).
Proof.
  intro Hs. induction items as [|x t IH]; simpl.
  - rewrite Hs. destruct (same_key (item_region item) k); reflexivity.
  - rewrite IH. destruct (item_sentiment x); [|reflexivity].
    destruct (same_key (item_region x) k); reflexivity.
Qed.

(** What the dictionary holds for a key: nothing when no record has the key,
    otherwise the sum and the number of the sentiment values filed under it. *)
Lemma group_loop_find (items : list record) (d : Dict.dict aggregate) (k : json) :
  group_loop [] items = (Ok tt, d) ->
  Dict.find k d =
  match region_sentiments k items with
  | [] => None
  | ss => Some (aggregate_of ss)
  end.
Proof.
  revert d. induction items as [|item items IH] using rev_ind; intros d' H.
  - injection H as <-. reflexivity.
  - apply group_loop_snoc in H. destruct H as (d & s & Hg & Hs & _ & ->).
    rewrite find_upsert, (region_sentiments_snoc k items item s Hs), (IH d Hg).
    destruct (same_key (item_region item) k).
    + destruct (region_sentiments k items) as [|s0 ss]; [reflexivity|].
      cbn [app]. change (s0 :: ss ++ [s]) with ((s0 :: ss) ++ [s]).
      unfold aggregate_of. cbn [total_sentiment count].
      rewrite fold_left_app, length_app, Nat2Z.inj_add. reflexivity.
    + rewrite app_nil_r. reflexivity.
Qed.

Lemma region_sentiments_length (k : json) (items : list record) :
  (List.length (region_sentiments k items) <= List.length items)%nat.
Proof.
  induction items as [|item t IH]; simpl; [lia|].
  destruct (item_sentiment item); [|lia].
  destruct (same_key (item_region item) k); simpl; lia.
Qed.

Lemma region_sentiments_same_key (k k' : json) (items : list record) :
  same_key k k' = true -> region_sentiments k items = region_sentiments k' items.
Proof.
  intro H. induction items as [|item t IH]; simpl; [reflexivity|].
  rewrite IH, (same_key_congr_r k k' _ H). reflexivity.
Qed.

(** Every item of the dictionary is the aggregate of the records of its
    key, of which there is at least one. *)
Lemma group_loop_In (items : list record) (d : Dict.dict aggregate)
    (k : json) (v : aggregate) :
  group_loop [] items = (Ok tt, d) ->
  In (k, v) d ->
  region_sentiments k items <> [] /\ v = aggregate_of (region_sentiments k items).
Proof.
  intros Hg Hin.
  assert (Hf : Dict.find k d = Some v).
  { apply In_find; [|exact Hin].
    rewrite (group_loop_keys items d Hg). apply first_occurrences_NoDup. }
  rewrite (group_loop_find items d k Hg) in Hf.
  destruct (region_sentiments k items); [discriminate|].
  split; [discriminate|]. congruence.
Qed.

(** **** The second loop *)

Lemma Ok_inj {X : Type} (x y : X) : Ok x = Ok y -> x = y.
Proof. intro H. injection H as H. exact H. Qed.

Lemma avg_sentiment_counted (v : aggregate) :
  1 <= count v ->
  avg_sentiment v =
  match float_truediv (total_sentiment v) (count v) with
  | Ok x => Ok (PyFloat x)
  | Raise e => Raise e
  end.
Proof.
  intro H. unfold avg_sentiment.
  destruct (0 <? count v) eqn:E; [reflexivity|]. apply Z.ltb_ge in E. lia.
Qed.

Lemma float_truediv_ok (total : float) (n : Z) :
  1 <= n <= PY_SSIZE_T_MAX ->
  float_of_int n = Some (Z2float n) /\
  float_truediv total n = Ok (total / Z2float n)%float.
Proof.
  intro H. unfold float_truediv, float_of_int.
  assert (Hlt : (Z.abs n <? float_max_int) = true).
  { apply Z.ltb_lt. rewrite Z.abs_eq by lia.
    apply Z.le_lt_trans with PY_SSIZE_T_MAX; [lia|]. vm_compute. reflexivity. }
  rewrite Hlt. split; [reflexivity|].
  destruct (n =? 0) eqn:E; [apply Z.eqb_eq in E; lia|reflexivity].
Qed.

Lemma make_result_hashable (cities : Dict.dict coords) (countries : Dict.dict string)
    (region : json) (avg : pynum) (n : Z) :
  hashable region = true ->
  make_result cities countries region avg n =
  Ok match Dict.find region cities with
     | Some c => CityResult region (lat c) (lon c) (py_round avg) n
     | None =>
         CountryResult region
           (match Dict.find region countries with
            | Some code => code
            | None => ""%string
            end) (py_round avg) n
     end.
Proof.
  intro H. unfold make_result, Dict.contains, Dict.getitem, Dict.get, Dict.mem.
  rewrite H. destruct (Dict.find region cities); [reflexivity|].
  destruct (Dict.find region countries); reflexivity.
Qed.

Lemma make_result_region (cities : Dict.dict coords) (countries : Dict.dict string)
    (region : json) (avg : pynum) (n : Z) (e : geo_result) :
  make_result cities countries region avg n = Ok e ->
  hashable region = true.
Proof.
  unfold make_result, Dict.contains.
  destruct (hashable region); [reflexivity|discriminate].
Qed.

(** What an entry is made of. *)
Lemma entry_of_inv (k : json) (v : aggregate) (e : geo_result) :
  1 <= count v ->
  entry_of (k, v) = Ok e ->
  exists c,
    float_of_int (count v) = Some c /\
    e = match Dict.find k location_coords with
        | Some p =>
            CityResult k (lat p) (lon p)
              (PyFloat (py_round2 (total_sentiment v / c))) (count v)
        | None =>
            CountryResult k
              (match Dict.find k country_codes with
               | Some code => code
               | None => ""%string
               end) (PyFloat (py_round2 (total_sentiment v / c))) (count v)
        end.
Proof.
  intros Hc. unfold entry_of. cbn [fst snd].
  rewrite (avg_sentiment_counted v Hc). unfold float_truediv.
  destruct (float_of_int (count v)) as [c|]; [|discriminate].
  destruct (count v =? 0); [discriminate|].
  intro H. pose proof (make_result_region _ _ _ _ _ _ H) as Hh.
  rewrite (make_result_hashable _ _ _ _ _ Hh) in H.
  exists c. split; [reflexivity|].
  apply Ok_inj in H. rewrite <- H. reflexivity.
Qed.

Lemma entry_of_ok (k : json) (v : aggregate) :
  hashable k = true -> 1 <= count v <= PY_SSIZE_T_MAX ->
  exists e, entry_of (k, v) = Ok e.
Proof.
  intros Hh Hc. unfold entry_of. cbn [fst snd].
  rewrite (avg_sentiment_counted v) by lia.
  destruct (float_truediv_ok (total_sentiment v) (count v) Hc) as [_ ->].
  rewrite (make_result_hashable _ _ _ _ _ Hh). eexists. reflexivity.
Qed.

Lemma result_loop_inv (entries : list (json * aggregate)) (acc l : list geo_result) :
  result_loop acc entries = (Ok tt, l) ->
  exists es, l = acc ++ es /\ Forall2 (fun kv e => entry_of kv = Ok e) entries es.
Proof.
  revert acc. induction entries as [|kv t IH]; intro acc; simpl.
  - intro H. injection H as <-. exists []. rewrite app_nil_r. auto.
  - destruct (entry_of kv) as [e|e] eqn:He; [|discriminate].
    intro H. destruct (IH _ H) as (es & -> & HF).
    exists (e :: es). rewrite <- app_assoc. auto.
Qed.

Lemma result_loop_ok (entries : list (json * aggregate)) (acc : list geo_result) :
  Forall (fun kv => exists e, entry_of kv = Ok e) entries ->
  fst (result_loop acc entries) = Ok tt.
Proof.
  revert acc. induction entries as [|kv t IH]; intros acc H; simpl; [reflexivity|].
  inversion H as [|x l [e He] Ht]; subst. rewrite He. apply IH. exact Ht.
Qed.

(** **** A call that returns *)

Lemma returned (st : frame) (out : list geo_result) :
  fst (get_geographical_trends st) = Ok out ->
  exists d,
    group_loop [] (sentiment_data st) = (Ok tt, d) /\
    Forall2 (fun kv e => entry_of kv = Ok e) d out.
Proof.
  rewrite get_geographical_trends_run. cbv zeta.
  destruct (group_loop [] (sentiment_data st)) as [[[]|e] d] eqn:Hg; simpl;
    [|discriminate].
  destruct (result_loop [] d) as [[[]|e] l] eqn:Hr; simpl; [|discriminate].
  intro H. injection H as ->. exists d. split; [reflexivity|].
  destruct (result_loop_inv d [] out Hr) as (es & Hes & HF).
  simpl in Hes. subst es. exact HF.
Qed.

Lemma Forall2_In_r {X Y : Type} (R : X -> Y -> Prop) (l1 : list X) (l2 : list Y) (y : Y) :
  Forall2 R l1 l2 -> In y l2 -> exists x, In x l1 /\ R x y.
Proof.
  induction 1 as [|x0 y0 t1 t2 HR HF IH]; simpl; [contradiction|].
  intros [->|Hin]; [exists x0; auto|].
  destruct (IH Hin) as (x & Hx & Hxy). exists x. auto.
Qed.

Lemma Forall2_In_l {X Y : Type} (R : X -> Y -> Prop) (l1 : list X) (l2 : list Y) (x : X) :
  Forall2 R l1 l2 -> In x l1 -> exists y, In y l2 /\ R x y.
Proof.
  induction 1 as [|x0 y0 t1 t2 HR HF IH]; simpl; [contradiction|].
  intros [->|Hin]; [exists y0; auto|].
  destruct (IH Hin) as (y & Hy & Hxy). exists y. auto.
Qed.

Lemma NoDup_map_In_eq {X Y : Type} (f : X -> Y) (l : list X) (x y : X) :
  NoDup (map f l) -> In x l -> In y l -> f x = f y -> x = y.
Proof.
  induction l as [|a t IH]; simpl; [contradiction|].
  intros Hnd Hx Hy Hf. inversion Hnd as [|b l' Hnot Hnd']; subst.
  destruct Hx as [->|Hx], Hy as [->|Hy]; [reflexivity| | |auto].
  - exfalso. apply Hnot. rewrite Hf. apply in_map. exact Hy.
  - exfalso. apply Hnot. rewrite <- Hf. apply in_map. exact Hx.
Qed.

(** **** Facts about a returned list *)

Lemma returned_counts (st : frame) (d : Dict.dict aggregate) (k : json) (v : aggregate) :
  group_loop [] (sentiment_data st) = (Ok tt, d) ->
  In (k, v) d ->
  1 <= count v <= Z.of_nat (List.length (sentiment_data st)).
Proof.
  intros Hg Hin. destruct (group_loop_In _ _ _ _ Hg Hin) as [Hne ->].
  unfold aggregate_of. cbn [count].
  pose proof (region_sentiments_length k (sentiment_data st)).
  destruct (region_sentiments k (sentiment_data st)); [congruence|]. simpl in *. lia.
Qed.

(** The entry of a key: its region is the key object first stored, its count
    and its sentiment come from the records of the key. *)
Lemma returned_entry (st : frame) (out : list geo_result) (e : geo_result) :
  fst (get_geographical_trends st) = Ok out ->
  In e out ->
  let ss := region_sentiments (entry_region e) (sentiment_data st) in
  exists c,
    ss <> [] /\
    float_of_int (Z.of_nat (List.length ss)) = Some c /\
    e = match Dict.find (entry_region e) location_coords with
        | Some p =>
            CityResult (entry_region e) (lat p) (lon p)
              (PyFloat (py_round2 (py_sum ss / c))) (Z.of_nat (List.length ss))
        | None =>
            CountryResult (entry_region e)
              (match Dict.find (entry_region e) country_codes with
               | Some code => code
               | None => ""%string
               end) (PyFloat (py_round2 (py_sum ss / c))) (Z.of_nat (List.length ss))
        end.
Proof.
  intros Hrun Hin. destruct (returned st out Hrun) as (d & Hg & HF).
  destruct (Forall2_In_r _ _ _ _ HF Hin) as ([k v] & Hkv & He).
  pose proof (returned_counts st d k v Hg Hkv) as Hc.
  destruct (entry_of_inv k v e (proj1 Hc) He) as (c & Hfc & Heq).
  assert (Hk : entry_region e = k).
  { rewrite Heq. destruct (Dict.find k location_coords); reflexivity. }
  destruct (group_loop_In _ _ _ _ Hg Hkv) as [Hne Hv].
  cbv zeta. rewrite Hk. exists c. split; [exact Hne|].
  rewrite Hv in Hfc, Heq. cbn [count total_sentiment aggregate_of] in Hfc, Heq.
  split; [exact Hfc|exact Heq].
Qed.

(** Every key that has records has an entry, and only one. *)
Lemma returned_has_entry (st : frame) (out : list geo_result) (k : json) :
  fst (get_geographical_trends st) = Ok out ->
  region_sentiments k (sentiment_data st) <> [] ->
  exists e,
    In e out /\ same_key (entry_region e) k = true /\
    forall e', In e' out -> same_key (entry_region e') k = true -> e' = e.
Proof.
  intros Hrun Hne. destruct (returned st out Hrun) as (d & Hg & HF).
  pose proof (group_loop_find _ d k Hg) as Hf.
  destruct (region_sentiments k (sentiment_data st)) as [|s0 ss] eqn:Hss; [congruence|].
  destruct (find_In _ _ _ Hf) as (k0 & Hin0 & Hk0).
  destruct (Forall2_In_l _ _ _ _ HF Hin0) as (e & He & Hentry).
  pose proof (returned_counts st d _ _ Hg Hin0) as Hc0.
  assert (Hreg : forall k1 v1 e1, In (k1, v1) d -> entry_of (k1, v1) = Ok e1 ->
                                  entry_region e1 = k1).
  { intros k1 v1 e1 Hin1 H1.
    pose proof (returned_counts st d _ _ Hg Hin1) as Hc1.
    destruct (entry_of_inv k1 v1 e1 (proj1 Hc1) H1) as (c1 & _ & ->).
    destruct (Dict.find k1 location_coords); reflexivity. }
  exists e. split; [exact He|]. split.
  - rewrite (Hreg _ _ _ Hin0 Hentry). exact Hk0.
  - intros e' He' Hk'.
    destruct (Forall2_In_r _ _ _ _ HF He') as ([k1 v1] & Hin1 & H1).
    rewrite (Hreg _ _ _ Hin1 H1) in Hk'.
    assert (Heq : (k1, v1) = (k0, aggregate_of (s0 :: ss))).
    { apply (NoDup_map_In_eq (fun kv => key_norm (fst kv)) d); [|exact Hin1|exact Hin0|].
      - rewrite <- (map_map fst key_norm).
        change (map fst d) with (Dict.keys d).
        rewrite (group_loop_keys _ d Hg). apply first_occurrences_NoDup.
      - cbn [fst]. apply same_key_true in Hk', Hk0. congruence. }
    rewrite Heq in H1. congruence.
Qed.

Lemma record_region_sentiments (items : list record) (item : record) (s : float) :
  In item items -> item_sentiment item = Ok s ->
  region_sentiments (item_region item) items <> [].
Proof.
  intros Hin Hs. induction items as [|x t IH]; simpl; [contradiction|].
  destruct Hin as [->|Hin].
  - rewrite Hs, same_key_refl. discriminate.
  - destruct (item_sentiment x); [|auto].
    destruct (same_key (item_region x) (item_region item)); [discriminate|auto].
Qed.

(** Every record of the input has the entry of its region. *)
Lemma returned_record_entry (st : frame) (out : list geo_result) (item : record) :
  fst (get_geographical_trends st) = Ok out ->
  In item (sentiment_data st) ->
  exists e, In e out /\ same_key (entry_region e) (item_region item) = true.
Proof.
  intros Hrun Hin. destruct (returned st out Hrun) as (d & Hg & _).
  assert (Hok : Forall record_ok (sentiment_data st)).
  { apply (group_loop_ok []). rewrite Hg. reflexivity. }
  rewrite Forall_forall in Hok. destruct (Hok item Hin) as [[s Hs] _].
  destruct (returned_has_entry st out (item_region item) Hrun
              (record_region_sentiments _ _ _ Hin Hs)) as (e & He & Hk & _).
  exists e. auto.
Qed.

(** **** Properties of the routine *)

(** C1 (amended): a call on at most [sys.maxsize] records returns, with an
    entry for the region of every record, whenever every record has a
    sentiment that [float] accepts and a region that can be a key; a record
    without a sentiment counts as [0.0]; a record whose sentiment [float]
    rejects, or whose region cannot be a key, is not tolerated: the call
    raises [HTTPException] with status 500. *)
Theorem C1_returns_when_records_convert (st : frame) :
  Z.of_nat (List.length (sentiment_data st)) <= PY_SSIZE_T_MAX ->
  (Forall record_ok (sentiment_data st) ->
   exists out,
     fst (get_geographical_trends st) = Ok out /\
     forall item, In item (sentiment_data st) ->
       exists e, In e out /\ same_key (entry_region e) (item_region item) = true) /\
  (forall item, In item (sentiment_data st) ->
     (forall v, ~ In ("sentiment"%string, v) item) -> item_sentiment item = Ok zero) /\
  (forall item, In item (sentiment_data st) ->
     ~ record_ok item ->
     exists e, fst (get_geographical_trends st) = Raise (HTTPException 500 e)).
Proof.
  intro Hlen. split; [|split].
  - intro Hok.
    assert (Hg : exists d, group_loop [] (sentiment_data st) = (Ok tt, d)).
    { pose proof (proj1 (group_loop_ok [] _) Hok) as H.
      destruct (group_loop [] (sentiment_data st)) as [r d]. simpl in H. subst r.
      exists d. reflexivity. }
    destruct Hg as (d & Hg).
    assert (Hr : fst (result_loop [] d) = Ok tt).
    { apply result_loop_ok. apply Forall_forall. intros [k v] Hin.
      apply entry_of_ok.
      - assert (Hk : In k (map item_region (sentiment_data st))).
        { apply first_occurrences_incl. rewrite <- (group_loop_keys _ d Hg).
          change k with (fst (k, v)). apply in_map. exact Hin. }
        apply in_map_iff in Hk. destruct Hk as (item & <- & Hitem).
        rewrite Forall_forall in Hok. apply (Hok item Hitem).
      - pose proof (returned_counts st d k v Hg Hin). lia. }
    assert (Hrun : fst (get_geographical_trends st) = Ok (snd (result_loop [] d))).
    { rewrite get_geographical_trends_run. cbv zeta. rewrite Hg. cbn [fst snd].
      rewrite Hr. reflexivity. }
    exists (snd (result_loop [] d)). split; [exact Hrun|].
    intros item Hin. apply (returned_record_entry st _ item Hrun Hin).
  - intros item _ Hmiss. unfold Geo.item_sentiment.
    assert (E : dict_get item "sentiment" (JInt 0) = JInt 0)
      by (apply dict_get_missing; exact Hmiss).
    rewrite E. reflexivity.
  - intros item Hin Hbad.
    destruct (fst (get_geographical_trends st)) as [out|e] eqn:Hrun.
    + exfalso. destruct (returned st out Hrun) as (d & Hg & _).
      assert (Hok : Forall record_ok (sentiment_data st)).
      { apply (group_loop_ok []). rewrite Hg. reflexivity. }
      rewrite Forall_forall in Hok. apply Hbad. apply (Hok item Hin).
    + rewrite get_geographical_trends_run in Hrun. cbv zeta in Hrun.
      destruct (fst (group_loop [] (sentiment_data st))) as [[]|e1].
      * destruct (fst (result_loop [] (snd (group_loop [] (sentiment_data st)))))
          as [[]|e2]; simpl in Hrun; [discriminate|].
        exists e2. congruence.
      * simpl in Hrun. exists e1. congruence.
Qed.

(** C2 (amended): a record without a region field is grouped under the
    label ["Unknown"], whose entry is in the output; a region that is
    present is the label as it is, [null] and the empty string too. *)
Theorem C2_missing_region_is_unknown (st : frame) (out : list geo_result)
    (item : record) :
  fst (get_geographical_trends st) = Ok out ->
  In item (sentiment_data st) ->
  ((forall v, ~ In ("region"%string, v) item) ->
   item_region item = JStr "Unknown" /\
   exists e, In e out /\ entry_region e = JStr "Unknown") /\
  (item_region item = JNull -> exists e, In e out /\ entry_region e = JNull) /\
  (item_region item = JStr "" -> exists e, In e out /\ entry_region e = JStr "").
Proof.
  intros Hrun Hin.
  destruct (returned_record_entry st out item Hrun Hin) as (e & He & Hk).
  split; [|split].
  - intro Hmiss.
    assert (E : item_region item = JStr "Unknown")
      by (apply dict_get_missing; exact Hmiss).
    split; [exact E|]. exists e. split; [exact He|].
    rewrite E, same_key_sym in Hk. apply same_key_str in Hk. exact Hk.
  - intro E. exists e. split; [exact He|].
    rewrite E in Hk. apply same_key_true in Hk. apply key_norm_null. exact Hk.
  - intro E. exists e. split; [exact He|].
    rewrite E, same_key_sym in Hk. apply same_key_str in Hk. exact Hk.
Qed.

(** The value returned depends on the frame through the input list
    only. *)
Lemma result_depends_on_input (st st' : frame) :
  sentiment_data st' = sentiment_data st ->
  fst (get_geographical_trends st') = fst (get_geographical_trends st).
Proof.
  intro H. rewrite !get_geographical_trends_run. cbv zeta. rewrite H.
  destruct (fst (group_loop [] (sentiment_data st))); [|reflexivity].
  destruct (fst (result_loop [] (snd (group_loop [] (sentiment_data st)))));
    reflexivity.
Qed.

(** C3: for a region label whose records carry the sentiment values
    [s1..sn], [n >= 1], the output has exactly one entry of that region; its
    count is [n] and its sentiment is [round(sum(s1..sn) / n, 2)], the sum
    being taken from left to right. *)
Theorem C3_mean_and_count (st : frame) (out : list geo_result) (k : json) :
  fst (get_geographical_trends st) = Ok out ->
  region_sentiments k (sentiment_data st) <> [] ->
  let ss := region_sentiments k (sentiment_data st) in
  let n := Z.of_nat (List.length ss) in
  exists e c,
    In e out /\ same_key (entry_region e) k = true /\
    (forall e', In e' out -> same_key (entry_region e') k = true -> e' = e) /\
    float_of_int n = Some c /\
    entry_count e = n /\
    entry_sentiment e = PyFloat (py_round2 (py_sum ss / c)).
Proof.
  intros Hrun Hne ss n.
  destruct (returned_has_entry st out k Hrun Hne) as (e & He & Hk & Huniq).
  destruct (returned_entry st out e Hrun He) as (c & _ & Hc & Heq).
  cbv zeta in Hc, Heq.
  rewrite (region_sentiments_same_key _ _ (sentiment_data st) Hk) in Hc, Heq.
  fold ss in Hc, Heq. fold n in Hc, Heq.
  exists e, c. repeat split; try assumption.
  - rewrite Heq. destruct (Dict.find (entry_region e) location_coords); reflexivity.
  - rewrite Heq. destruct (Dict.find (entry_region e) location_coords); reflexivity.
Qed.

(** C4: a region label that is not a key of the city table has an entry of
    type ["country"] whose country code is the code of the label in the
    country table, or the empty string when the label is not there either;
    the two records of ["Germany"] with [0.5] and [-0.3] give exactly the
    entry [{"region": "Germany", "country_code": "DEU", "sentiment": 0.1,
    "count": 2, "type": "country"}]. *)
Theorem C4_country_fallback (st : frame) :
  (forall out item,
     fst (get_geographical_trends st) = Ok out ->
     In item (sentiment_data st) ->
     Dict.find (item_region item) location_coords = None ->
     exists e,
       In e out /\ same_key (entry_region e) (item_region item) = true /\
       entry_type e = "country"%string /\
       entry_country_code e =
       Some match Dict.find (item_region item) country_codes with
            | Some code => code
            | None => ""%string
            end) /\
  (sentiment_data st = germany_records ->
   fst (get_geographical_trends st)
   = Ok [CountryResult (JStr "Germany") "DEU" (PyFloat 0.1) 2]).
Proof.
  split.
  - intros out item Hrun Hin Hcity.
    destruct (returned_record_entry st out item Hrun Hin) as (e & He & Hk).
    destruct (returned_entry st out e Hrun He) as (c & _ & _ & Heq).
    cbv zeta in Heq.
    rewrite (find_same_key _ _ location_coords Hk), Hcity in Heq.
    rewrite (find_same_key _ _ country_codes Hk) in Heq.
    exists e. split; [exact He|]. split; [exact Hk|].
    rewrite Heq. split; reflexivity.
  - intro Hdata.
    rewrite (result_depends_on_input (fresh germany_records) st)
      by (rewrite Hdata; reflexivity).
    vm_compute. reflexivity.
Qed.

(** C5: a region label that is a key of the city table has an entry of type
    ["city"] with the latitude and the longitude of the table, and the
    country table plays no part in it; region ["Toronto"] has an entry of
    type ["city"] with latitude 43.6532 and longitude -79.3832. *)
Theorem C5_city_first (st : frame) (out : list geo_result) :
  fst (get_geographical_trends st) = Ok out ->
  (forall item p, In item (sentiment_data st) ->
     Dict.find (item_region item) location_coords = Some p ->
     (exists e,
        In e out /\ same_key (entry_region e) (item_region item) = true /\
        entry_type e = "city"%string /\
        entry_coords e = Some (lat p, lon p) /\
        entry_country_code e = None) /\
     (forall countries avg n,
        make_result location_coords countries (item_region item) avg n =
        make_result location_coords country_codes (item_region item) avg n)) /\
  (forall item, In item (sentiment_data st) ->
     item_region item = JStr "Toronto" ->
     exists s n, In (CityResult (JStr "Toronto") 43.6532 (-79.3832) s n) out).
Proof.
  intro Hrun.
  assert (Hcity : forall item p, In item (sentiment_data st) ->
            Dict.find (item_region item) location_coords = Some p ->
            exists e, In e out /\ same_key (entry_region e) (item_region item) = true /\
              exists s n, e = CityResult (entry_region e) (lat p) (lon p) s n).
  { intros item p Hin Hp.
    destruct (returned_record_entry st out item Hrun Hin) as (e & He & Hk).
    destruct (returned_entry st out e Hrun He) as (c & _ & _ & Heq).
    cbv zeta in Heq. rewrite (find_same_key _ _ location_coords Hk), Hp in Heq.
    exists e. split; [exact He|]. split; [exact Hk|]. eexists. eexists. exact Heq. }
  split.
  - intros item p Hin Hp. split.
    + destruct (Hcity item p Hin Hp) as (e & He & Hk & s & n & Heq).
      exists e. split; [exact He|]. split; [exact Hk|].
      rewrite Heq. repeat split.
    + intros countries avg n. unfold make_result, Dict.contains, Dict.mem.
      rewrite Hp. destruct (hashable (item_region item)); reflexivity.
  - intros item Hin Hreg.
    assert (Hp : Dict.find (item_region item) location_coords
                 = Some {| lat := 43.6532; lon := -79.3832 |}).
    { rewrite Hreg. vm_compute. reflexivity. }
    destruct (Hcity item _ Hin Hp) as (e & He & Hk & s & n & Heq).
    rewrite Hreg, same_key_sym in Hk. apply same_key_str in Hk.
    rewrite Hk in Heq. exists s, n. rewrite Heq in He. exact He.
Qed.

Lemma Forall2_map_eq {X Y W : Type} (R : X -> Y -> Prop) (f : X -> W) (g : Y -> W)
    (l1 : list X) (l2 : list Y) :
  Forall2 R l1 l2 ->
  (forall x y, In x l1 -> R x y -> g y = f x) ->
  map g l2 = map f l1.
Proof.
  induction 1 as [|x y t1 t2 HR HF IH]; intro H; simpl; [reflexivity|].
  rewrite (H x y) by (simpl; auto). rewrite IH; [reflexivity|].
  intros x' y' Hin. apply H. right. exact Hin.
Qed.

Lemma returned_regions (st : frame) (out : list geo_result) (d : Dict.dict aggregate) :
  group_loop [] (sentiment_data st) = (Ok tt, d) ->
  Forall2 (fun kv e => entry_of kv = Ok e) d out ->
  map entry_region out = Dict.keys d /\
  map entry_count out = map (fun kv => count (snd kv)) d.
Proof.
  intros Hg HF.
  split; apply (Forall2_map_eq _ _ _ _ _ HF); intros [k v] e Hin He;
    pose proof (returned_counts st d k v Hg Hin) as Hc;
    destruct (entry_of_inv k v e (proj1 Hc) He) as (c & _ & ->);
    destruct (Dict.find k location_coords); reflexivity.
Qed.

(** C6: the output lists the regions in the order in which their labels
    first occur in the input, each label once. *)
Theorem C6_first_seen_order (st : frame) (out : list geo_result) :
  fst (get_geographical_trends st) = Ok out ->
  map entry_region out = first_occurrences (map item_region (sentiment_data st)) /\
  NoDup (map key_norm (map entry_region out)).
Proof.
  intro Hrun. destruct (returned st out Hrun) as (d & Hg & HF).
  destruct (returned_regions st out d Hg HF) as [Hreg _].
  rewrite Hreg, (group_loop_keys _ d Hg).
  split; [reflexivity|apply first_occurrences_NoDup].
Qed.

(** C7 (amended): the output has as many entries as the input has distinct
    region labels after defaulting, where a missing region is ["Unknown"]
    and a region that is [null] is a label of its own; a call on the empty
    list returns the empty list. *)
Theorem C7_one_entry_per_region (st : frame) :
  (forall out, fst (get_geographical_trends st) = Ok out ->
     List.length out = distinct_regions (sentiment_data st)) /\
  (sentiment_data st = [] -> fst (get_geographical_trends st) = Ok []).
Proof.
  split.
  - intros out Hrun. destruct (returned st out Hrun) as (d & Hg & HF).
    destruct (returned_regions st out d Hg HF) as [Hreg _].
    rewrite <- (length_map entry_region out), Hreg, (group_loop_keys _ d Hg).
    rewrite first_occurrences_length. unfold distinct_regions, distinct_labels.
    rewrite map_map. reflexivity.
  - intro Hdata. rewrite get_geographical_trends_run. cbv zeta.
    rewrite Hdata. reflexivity.
Qed.

Lemma store_counted (d : Dict.dict aggregate) (k : json) (v : aggregate) :
  Forall (fun kv => 1 <= count (snd kv)) d -> 1 <= count v ->
  Forall (fun kv => 1 <= count (snd kv)) (Dict.store k v d).
Proof.
  intros Hd Hv. induction d as [|[k0 v0] t IH]; simpl.
  - constructor; [exact Hv|constructor].
  - inversion Hd as [|x l H0 Ht]; subst.
    destruct (same_key k0 k); constructor; auto.
Qed.

Lemma find_counted (d : Dict.dict aggregate) (k : json) (v : aggregate) :
  Forall (fun kv => 1 <= count (snd kv)) d -> Dict.find k d = Some v -> 1 <= count v.
Proof.
  intros Hd Hf. destruct (find_In _ _ _ Hf) as (k0 & Hin & _).
  rewrite Forall_forall in Hd. apply (Hd (k0, v) Hin).
Qed.

Lemma group_loop_counted (d : Dict.dict aggregate) (items : list record) :
  Forall (fun kv => 1 <= count (snd kv)) d ->
  Forall (fun kv => 1 <= count (snd kv)) (snd (group_loop d items)).
Proof.
  revert d. induction items as [|item t IH]; intros d Hd; simpl; [exact Hd|].
  destruct (item_sentiment item) as [s|e]; [|exact Hd].
  destruct (hashable (item_region item)); [|exact Hd].
  apply IH. unfold upsert.
  destruct (Dict.find (item_region item) d) as [v|] eqn:Hf.
  - apply store_counted; [exact Hd|]. cbn [count].
    pose proof (find_counted d _ v Hd Hf). lia.
  - apply store_counted; [exact Hd|]. cbn [count]. lia.
Qed.

(** C8: when the grouping pass is over, however it ended, every key of the
    mapping has a count of at least 1: the test [count > 0] of the mean
    holds, the mean is the quotient, and the branch that yields [0] is not
    taken, nor is there a division by zero. *)
Theorem C8_count_at_least_one (st : frame) (k : json) (v : aggregate) :
  In (k, v) (region_sentiment (snd (grouping_pass st))) ->
  1 <= count v /\
  (0 <? count v) = true /\
  avg_sentiment v =
  match float_truediv (total_sentiment v) (count v) with
  | Ok x => Ok (PyFloat x)
  | Raise e => Raise e
  end /\
  avg_sentiment v <> Ok (PyInt 0) /\
  avg_sentiment v <> Raise ZeroDivisionError.
Proof.
  rewrite grouping_pass_run. cbn [snd region_sentiment set_region_sentiment].
  intro Hin.
  assert (Hc : 1 <= count v).
  { pose proof (group_loop_counted [] (sentiment_data st) (Forall_nil _)) as H.
    rewrite Forall_forall in H. apply (H (k, v) Hin). }
  split; [exact Hc|]. split; [apply Z.ltb_lt; lia|].
  rewrite (avg_sentiment_counted v Hc). split; [reflexivity|].
  unfold float_truediv. destruct (float_of_int (count v)); [|split; discriminate].
  destruct (count v =? 0) eqn:E; [apply Z.eqb_eq in E; lia|].
  split; discriminate.
Qed.

(** C9: a call leaves the input list as it found it, and what it returns
    depends on the input list only: a second call, started from the frame
    the first one left behind, returns the same, and so does a call from any
    other frame with the same input. *)
Theorem C9_pure (st : frame) :
  sentiment_data (snd (get_geographical_trends st)) = sentiment_data st /\
  fst (get_geographical_trends (snd (get_geographical_trends st)))
  = fst (get_geographical_trends st) /\
  (forall st', sentiment_data st' = sentiment_data st ->
     fst (get_geographical_trends st') = fst (get_geographical_trends st)).
Proof.
  split; [apply get_geographical_trends_input|]. split.
  - apply result_depends_on_input. apply get_geographical_trends_input.
  - intros st' H. apply result_depends_on_input. exact H.
Qed.

Lemma counts_store (d : Dict.dict aggregate) (k : json) (v : aggregate) :
  fold_right Z.add 0 (map (fun kv => count (snd kv)) (Dict.store k v d))
  = fold_right Z.add 0 (map (fun kv => count (snd kv)) d) + count v
    - match Dict.find k d with Some v0 => count v0 | None => 0 end.
Proof.
  induction d as [|[k0 v0] t IH]; simpl; [lia|].
  destruct (same_key k0 k); simpl; [lia|]. rewrite IH. lia.
Qed.

Lemma counts_upsert (d : Dict.dict aggregate) (k : json) (s : float) :
  fold_right Z.add 0 (map (fun kv => count (snd kv)) (upsert d k s))
  = fold_right Z.add 0 (map (fun kv => count (snd kv)) d) + 1.
Proof.
  unfold upsert. destruct (Dict.find k d) as [v|] eqn:Hf;
    rewrite counts_store, Hf; cbn [count]; lia.
Qed.

Lemma group_loop_counts (items : list record) (d : Dict.dict aggregate) :
  group_loop [] items = (Ok tt, d) ->
  fold_right Z.add 0 (map (fun kv => count (snd kv)) d) = Z.of_nat (List.length items).
Proof.
  revert d. induction items as [|item items IH] using rev_ind; intros d' H.
  - injection H as <-. reflexivity.
  - apply group_loop_snoc in H. destruct H as (d & s & Hg & _ & _ & ->).
    rewrite counts_upsert, (IH d Hg), length_app. simpl. lia.
Qed.

(** C10: the counts of the entries add up to the number of records. *)
Theorem C10_counts_add_up (st : frame) (out : list geo_result) :
  fst (get_geographical_trends st) = Ok out ->
  sum_counts out = Z.of_nat (List.length (sentiment_data st)).
Proof.
  intro Hrun. destruct (returned st out Hrun) as (d & Hg & HF).
  destruct (returned_regions st out d Hg HF) as [_ Hcnt].
  unfold sum_counts. rewrite Hcnt. apply group_loop_counts. exact Hg.
Qed.

End Run.




End RunFacts.

(** ** The data directory *)

Module DirFacts.

Import Py Api.
Local Open Scope string_scope.

Lemma ascii_compare_refl (a : ascii) : Ascii.compare a a = Eq.
Proof. unfold Ascii.compare. apply N.compare_refl. Qed.

Lemma ascii_compare_lt_trans (a b c : ascii) :
  Ascii.compare a b = Lt -> Ascii.compare b c = Lt -> Ascii.compare a c = Lt.
Proof.
  unfold Ascii.compare. rewrite !N.compare_lt_iff. intros. lia.
Qed.

Lemma string_compare_refl (s : string) : String.compare s s = Eq.
Proof.
  induction s as [|a s IH]; simpl; [reflexivity|].
  rewrite ascii_compare_refl. exact IH.
Qed.

Lemma string_compare_lt_trans (a b c : string) :
  String.compare a b = Lt -> String.compare b c = Lt -> String.compare a c = Lt.
Proof.
  revert b c. induction a as [|x a IH]; intros [|y b] [|z c]; simpl;
    try discriminate; try reflexivity.
  destruct (Ascii.compare x y) eqn:Exy; try discriminate;
    destruct (Ascii.compare y z) eqn:Eyz; try discriminate; intros Hab Hbc.
  - apply Ascii.compare_eq_iff in Exy, Eyz. subst.
    rewrite ascii_compare_refl. apply (IH b c); assumption.
  - apply Ascii.compare_eq_iff in Exy. subst. rewrite Eyz. reflexivity.
  - apply Ascii.compare_eq_iff in Eyz. subst. rewrite Exy. reflexivity.
  - rewrite (ascii_compare_lt_trans x y z Exy Eyz). reflexivity.
Qed.

Lemma leb_refl (s : string) : (s <=? s) = true.
Proof. unfold String.leb. rewrite string_compare_refl. reflexivity. Qed.

Lemma leb_trans (a b c : string) :
  (a <=? b) = true -> (b <=? c) = true -> (a <=? c) = true.
Proof.
  unfold String.leb.
  destruct (String.compare a b) eqn:Eab; try discriminate;
    destruct (String.compare b c) eqn:Ebc; try discriminate; intros _ _.
  - apply String.compare_eq_iff in Eab, Ebc. subst.
    rewrite string_compare_refl. reflexivity.
  - apply String.compare_eq_iff in Eab. subst. rewrite Ebc. reflexivity.
  - apply String.compare_eq_iff in Ebc. subst. rewrite Eab. reflexivity.
  - rewrite (string_compare_lt_trans a b c Eab Ebc). reflexivity.
Qed.

Lemma ltb_false_leb (a b : string) : (a <? b) = false -> (b <=? a) = true.
Proof.
  unfold String.ltb, String.leb. rewrite (String.compare_antisym a b).
  destruct (String.compare b a); simpl; congruence.
Qed.

Lemma ltb_true_leb (a b : string) : (a <? b) = true -> (a <=? b) = true.
Proof.
  unfold String.ltb, String.leb. destruct (String.compare a b); congruence.
Qed.

Lemma leb_append (p a b : string) : (p ++ a <=? p ++ b) = (a <=? b).
Proof.
  unfold String.leb. induction p as [|x p IH]; simpl; [reflexivity|].
  rewrite ascii_compare_refl. exact IH.
Qed.

(** **** The pattern *)

Lemma strip_prefix_spec (p s r : string) : strip_prefix p s = Some r <-> s = p ++ r.
Proof.
  revert s. induction p as [|a p IH]; intros [|b s]; simpl.
  - split; congruence.
  - split; congruence.
  - split; discriminate.
  - destruct (Ascii.eqb a b) eqn:E.
    + apply Ascii.eqb_eq in E. subst b. rewrite IH. split; congruence.
    + apply Ascii.eqb_neq in E. split; [discriminate|]. intro H. congruence.
Qed.

Lemma ends_with_nil (suffix : string) :
  ends_with suffix "" = String.eqb "" suffix.
Proof. unfold ends_with. apply orb_false_r. Qed.

Lemma ends_with_cons (suffix : string) (a : ascii) (s : string) :
  ends_with suffix (String a s) = String.eqb (String a s) suffix || ends_with suffix s.
Proof. reflexivity. Qed.

Lemma ends_with_spec (suffix s : string) :
  ends_with suffix s = true <-> exists mid, s = mid ++ suffix.
Proof.
  induction s as [|a s IH].
  - rewrite ends_with_nil, String.eqb_eq. split.
    + intros <-. exists "". reflexivity.
    + intros ([|b mid] & H); simpl in H; [auto|discriminate].
  - rewrite ends_with_cons, orb_true_iff, String.eqb_eq, IH. split.
    + intros [<-|(mid & ->)]; [exists ""; reflexivity|].
      exists (String a mid). reflexivity.
    + intros ([|b mid] & H); simpl in H; [left; exact H|].
      right. exists mid. congruence.
Qed.

(** A name matches when it is ["processed_data_"], anything, [".json"]. *)
Lemma matches_spec (name : string) :
  matches name = true <->
  exists mid, name = "processed_data_" ++ mid ++ ".json".
Proof.
  unfold matches.
  destruct (strip_prefix "processed_data_" name) as [rest|] eqn:E.
  - apply strip_prefix_spec in E. rewrite ends_with_spec. split.
    + intros (mid & ->). exists mid. exact E.
    + intros (mid & H). exists mid. rewrite H in E.
      change ("processed_data_" ++ mid ++ ".json")
        with ("processed_data_" ++ (mid ++ ".json")) in E.
      revert E. generalize (mid ++ ".json"). intros s E. simpl in E. congruence.
  - split; [discriminate|]. intros (mid & H).
    assert (strip_prefix "processed_data_" name = Some (mid ++ ".json"))
      by (apply strip_prefix_spec; exact H).
    congruence.
Qed.

(** **** The greatest name *)

Lemma py_max_ge_first (f : string) (r : list string) : (f <=? py_max f r) = true.
Proof.
  unfold py_max. revert f. induction r as [|x r IH]; intro f; simpl.
  - apply leb_refl.
  - destruct (f <? x) eqn:E.
    + apply leb_trans with x; [apply ltb_true_leb; exact E|apply IH].
    + apply IH.
Qed.

Lemma py_max_In (f : string) (r : list string) : In (py_max f r) (f :: r).
Proof.
  unfold py_max. revert f. induction r as [|x r IH]; intro f; simpl.
  - left. reflexivity.
  - destruct (IH (if f <? x then x else f)) as [H|H].
    + destruct (f <? x); [right; left; exact H|left; exact H].
    + right. right. exact H.
Qed.

Lemma py_max_upper (f : string) (r : list string) (x : string) :
  In x (f :: r) -> (x <=? py_max f r) = true.
Proof.
  revert f. induction r as [|y r IH]; intros f [<-|Hin].
  - apply py_max_ge_first.
  - destruct Hin.
  - apply py_max_ge_first.
  - change (py_max f (y :: r)) with (py_max (if f <? y then y else f) r).
    destruct Hin as [<-|Hin].
    + apply leb_trans with (if f <? y then y else f); [|apply py_max_ge_first].
      destruct (f <? y) eqn:E; [apply leb_refl|apply ltb_false_leb; exact E].
    + apply IH. right. exact Hin.
Qed.

Lemma py_max_permutation (f f' : string) (r r' : list string) :
  Permutation (f :: r) (f' :: r') -> py_max f r = py_max f' r'.
Proof.
  intro HP. apply String.leb_antisym.
  - apply py_max_upper. apply (Permutation_in _ HP). apply py_max_In.
  - apply py_max_upper. apply (Permutation_in _ (Permutation_sym HP)). apply py_max_In.
Qed.

Lemma filter_permutation {A : Type} (p : A -> bool) (l l' : list A) :
  Permutation l l' -> Permutation (filter p l) (filter p l').
Proof.
  induction 1 as [|x l l' HP IH|x y l|l l' l'' HP1 IH1 HP2 IH2]; simpl.
  - constructor.
  - destruct (p x); [constructor; exact IH|exact IH].
  - destruct (p x), (p y); try apply Permutation_refl. constructor.
  - apply Permutation_trans with (filter p l'); assumption.
Qed.

Lemma glob_permutation (l l' : list string) :
  Permutation l l' -> Permutation (glob l) (glob l').
Proof.
  intro H. unfold glob. apply Permutation_map. apply filter_permutation. exact H.
Qed.

Lemma glob_In (names : list string) (path : string) :
  In path (glob names) <->
  exists name, In name names /\ matches name = true /\ path = "data/" ++ name.
Proof.
  unfold glob. rewrite in_map_iff. split.
  - intros (name & <- & Hin). apply filter_In in Hin. exists name. tauto.
  - intros (name & Hin & Hm & ->). exists name. split; [reflexivity|].
    apply filter_In. auto.
Qed.

(** X1: when some name of the directory matches the pattern, the snapshot
    read is the file [data/name] of a name [name] of the directory of the
    form [processed_data_*.json] that no other such name exceeds in the
    order of strings; the request proceeds with its parsed content, or
    fails with what reading it raised. *)
Theorem latest_snapshot_is_greatest (env : data_dir) :
  (exists n, In n (listing env) /\ matches n = true) ->
  exists name mid,
    In name (listing env) /\
    name = "processed_data_" ++ mid ++ ".json" /\
    (forall n mid', In n (listing env) ->
       n = "processed_data_" ++ mid' ++ ".json" -> (n <=? name) = true) /\
    load_latest env =
    match content env ("data/" ++ name) with
    | Parsed data => Done (Some data)
    | Unreadable e => Threw (File e)
    end.
Proof.
  intros (n0 & Hn0 & Hm0). unfold load_latest.
  destruct (glob (listing env)) as [|f fs] eqn:Hg.
  - exfalso. assert (H : In ("data/" ++ n0) (glob (listing env)))
      by (apply glob_In; exists n0; auto).
    rewrite Hg in H. destruct H.
  - pose proof (py_max_In f fs) as Hin. rewrite <- Hg in Hin.
    apply glob_In in Hin. destruct Hin as (name & Hname & Hm & Hpath).
    destruct (proj1 (matches_spec name) Hm) as (mid & Hmid).
    exists name, mid. split; [exact Hname|]. split; [exact Hmid|]. split.
    + intros n mid' Hn Hnm.
      assert (Hin : In ("data/" ++ n) (f :: fs)).
      { rewrite <- Hg. apply glob_In. exists n. split; [exact Hn|].
        split; [|reflexivity]. apply matches_spec. exists mid'. exact Hnm. }
      apply py_max_upper in Hin. rewrite Hpath, leb_append in Hin. exact Hin.
    + rewrite Hpath. reflexivity.
Qed.

(** X2: the snapshot read does not depend on the order in which the
    directory lists its entries. *)
Theorem load_latest_order_independent (l l' : list string)
    (read : string -> file_result) :
  Permutation l l' ->
  load_latest {| listing := l; content := read |}
  = load_latest {| listing := l'; content := read |}.
Proof.
  intro HP. apply glob_permutation in HP. unfold load_latest. cbn [listing content].
  destruct (glob l) as [|f fs], (glob l') as [|f' fs'].
  - reflexivity.
  - apply Permutation_nil in HP. discriminate.
  - apply Permutation_sym, Permutation_nil in HP. discriminate.
  - rewrite (py_max_permutation f f' fs fs' HP). reflexivity.
Qed.

End DirFacts.

(** ** More on the aggregation *)

Module RoutineFacts.

Import Py Geo Api KeyFacts DictFacts OrderFacts RunFacts.
Local Open Scope Z_scope.

Section Routine.

Variable float_of_str : string -> option float.

Local Abbreviation item_sentiment := (item_sentiment float_of_str).
Local Abbreviation group_loop := (group_loop float_of_str).
Local Abbreviation record_ok := (record_ok float_of_str).
Local Abbreviation region_sentiments := (region_sentiments float_of_str).
Local Abbreviation get_geographical_trends := (get_geographical_trends float_of_str).

Lemma py_float_raises (v : json) (e : exn) :
  py_float float_of_str v = Raise e ->
  e = ValueError \/ e = TypeError \/ e = OverflowError.
Proof.
  destruct v; simpl; try (intro H; injection H as <-; auto; fail); try discriminate.
  - destruct (float_of_int z); [discriminate|]. intro H. injection H as <-. auto.
  - destruct (float_of_str s); [discriminate|]. intro H. injection H as <-. auto.
Qed.

(** The result of the second loop when the first one is over. *)
Lemma result_loop_returns (items : list record) (d : Dict.dict aggregate) :
  Z.of_nat (List.length items) <= PY_SSIZE_T_MAX ->
  group_loop [] items = (Ok tt, d) ->
  fst (result_loop [] d) = Ok tt.
Proof.
  intros Hlen Hg.
  assert (Hok : Forall record_ok items).
  { apply (group_loop_ok float_of_str []). rewrite Hg. reflexivity. }
  apply result_loop_ok. apply Forall_forall. intros [k v] Hin.
  apply entry_of_ok.
  - assert (Hk : In k (map item_region items)).
    { apply first_occurrences_incl. rewrite <- (group_loop_keys float_of_str _ d Hg).
      change k with (fst (k, v)). apply in_map. exact Hin. }
    apply in_map_iff in Hk. destruct Hk as (item & <- & Hitem).
    rewrite Forall_forall in Hok. apply (Hok item Hitem).
  - pose proof (returned_counts float_of_str (fresh items) d k v Hg Hin) as H.
    cbn [fresh sentiment_data] in H. lia.
Qed.

Lemma first_bad_record (items : list record) (d : Dict.dict aggregate) (e : exn) :
  fst (group_loop d items) = Raise e ->
  exists before item after,
    items = before ++ item :: after /\
    Forall record_ok before /\
    ~ record_ok item /\
    e = match item_sentiment item with Raise x => x | Ok _ => TypeError end.
Proof.
  revert d. induction items as [|item t IH]; intro d; simpl; [discriminate|].
  destruct (item_sentiment item) as [s|x] eqn:Hs.
  - destruct (hashable (item_region item)) eqn:Hh.
    + intro H. destruct (IH _ H) as (before & bad & after & -> & Hok & Hbad & He).
      exists (item :: before), bad, after. split; [reflexivity|].
      split; [|auto]. constructor; [|exact Hok].
      split; [exists s; exact Hs|exact Hh].
    + intro H. injection H as <-. exists [], item, t. split; [reflexivity|].
      split; [constructor|]. split.
      * intros [_ Hh']. congruence.
      * unfold Geo.item_sentiment in Hs. unfold Geo.item_sentiment.
        rewrite Hs. reflexivity.
  - intro H. injection H as <-. exists [], item, t. split; [reflexivity|].
    split; [constructor|]. split.
    + intros [[s Hs'] _]. unfold Geo.item_sentiment in Hs, Hs'. congruence.
    + unfold Geo.item_sentiment in Hs. unfold Geo.item_sentiment.
      rewrite Hs. reflexivity.
Qed.

(** X12: a call on at most [sys.maxsize] records that fails, fails with
    status 500 on its first malformed record, the records before it being
    well formed: with what [float] raised on the sentiment of that record,
    or with [TypeError] for a region that cannot be a key.  The cause is a
    [ValueError], a [TypeError] or an [OverflowError], never a [KeyError]
    nor a [ZeroDivisionError]. *)
Theorem failure_is_first_malformed_record (st : frame) (e : exn) :
  Z.of_nat (List.length (sentiment_data st)) <= PY_SSIZE_T_MAX ->
  fst (get_geographical_trends st) = Raise e ->
  exists before item after cause,
    sentiment_data st = before ++ item :: after /\
    Forall record_ok before /\
    ~ record_ok item /\
    cause = match item_sentiment item with Raise x => x | Ok _ => TypeError end /\
    (cause = ValueError \/ cause = TypeError \/ cause = OverflowError) /\
    e = HTTPException 500 cause.
Proof.
  intros Hlen. rewrite get_geographical_trends_run. cbv zeta.
  destruct (Geo.group_loop float_of_str [] (sentiment_data st)) as [[[]|x] d] eqn:Hg;
    cbn [fst snd].
  - rewrite (result_loop_returns _ d Hlen Hg). discriminate.
  - intro H. injection H as <-.
    assert (Hx : fst (group_loop [] (sentiment_data st)) = Raise x)
      by (rewrite Hg; reflexivity).
    destruct (first_bad_record _ _ _ Hx) as (before & item & after & Hsplit & Hok & Hbad & He).
    exists before, item, after, x. repeat split; try assumption.
    rewrite He. destruct (Geo.item_sentiment float_of_str item) as [s|y] eqn:Hs; [auto|].
    apply (py_float_raises _ _ Hs).
Qed.

Lemma returns_when_ok (st : frame) :
  Z.of_nat (List.length (sentiment_data st)) <= PY_SSIZE_T_MAX ->
  Forall record_ok (sentiment_data st) ->
  exists out, fst (get_geographical_trends st) = Ok out.
Proof.
  intros Hlen Hok.
  pose proof (proj1 (group_loop_ok float_of_str [] _) Hok) as H.
  destruct (Geo.group_loop float_of_str [] (sentiment_data st)) as [r d] eqn:Hg.
  simpl in H. subst r.
  pose proof (result_loop_returns _ d Hlen Hg) as Hr.
  exists (snd (result_loop [] d)).
  rewrite get_geographical_trends_run. cbv zeta. rewrite Hg. cbn [fst snd].
  rewrite Hr. reflexivity.
Qed.

Lemma returned_ok (st : frame) (out : list geo_result) :
  fst (get_geographical_trends st) = Ok out -> Forall record_ok (sentiment_data st).
Proof.
  intro Hrun. destruct (returned float_of_str st out Hrun) as (d & Hg & _).
  apply (group_loop_ok float_of_str []). rewrite Hg. reflexivity.
Qed.

Lemma returned_length (st : frame) (out : list geo_result) :
  fst (get_geographical_trends st) = Ok out ->
  List.length out
  = List.length (nodup key_class_eq_dec
                   (map key_norm (map item_region (sentiment_data st)))).
Proof.
  intro Hrun. destruct (returned float_of_str st out Hrun) as (d & Hg & HF).
  destruct (returned_regions float_of_str st out d Hg HF) as [Hreg _].
  rewrite <- (length_map entry_region out), Hreg, (group_loop_keys float_of_str _ d Hg).
  apply first_occurrences_length.
Qed.

Lemma region_sentiments_permutation (k : json) (items items' : list record) :
  Permutation items items' ->
  Permutation (region_sentiments k items) (region_sentiments k items').
Proof.
  induction 1 as [|x l l' HP IH|x y l|l l' l'' HP1 IH1 HP2 IH2]; simpl.
  - constructor.
  - destruct (item_sentiment x); [|exact IH].
    destruct (same_key (item_region x) k); [constructor|]; exact IH.
  - destruct (item_sentiment x), (item_sentiment y);
      destruct (same_key (item_region x) k), (same_key (item_region y) k);
      try apply Permutation_refl. constructor.
  - apply Permutation_trans with (region_sentiments k l'); assumption.
Qed.

(** What an entry says apart from its sentiment. *)
Lemma entry_fields (st : frame) (out : list geo_result) (e : geo_result) :
  fst (get_geographical_trends st) = Ok out ->
  In e out ->
  region_sentiments (entry_region e) (sentiment_data st) <> [] /\
  entry_count e
  = Z.of_nat (List.length (region_sentiments (entry_region e) (sentiment_data st))) /\
  (exists x, entry_sentiment e = PyFloat x) /\
  entry_coords e
  = option_map (fun p => (lat p, lon p)) (Dict.find (entry_region e) location_coords) /\
  entry_country_code e
  = match Dict.find (entry_region e) location_coords with
    | Some _ => None
    | None => Some match Dict.find (entry_region e) country_codes with
                   | Some code => code
                   | None => ""%string
                   end
    end /\
  entry_type e
  = match Dict.find (entry_region e) location_coords with
    | Some _ => "city"%string
    | None => "country"%string
    end.
Proof.
  intros Hrun Hin.
  destruct (returned_entry float_of_str st out e Hrun Hin) as (c & Hne & _ & Heq).
  cbv zeta in Hne, Heq. split; [exact Hne|].
  remember (entry_region e) as k eqn:Hk.
  destruct (Dict.find k location_coords) as [p|]; subst e;
    cbn [entry_count entry_sentiment entry_coords entry_country_code entry_type
         option_map];
    repeat split; try reflexivity; eexists; reflexivity.
Qed.

(** X13: the order of the records has no part in whether a call on at
    most [sys.maxsize] records returns, in how many entries it returns, nor
    in the region, the count, the type, the coordinates and the country code
    of an entry; only the place of the entry and its sentiment may
    change. *)
Theorem order_of_records_keeps_counts (st st' : frame) (out : list geo_result) :
  Z.of_nat (List.length (sentiment_data st)) <= PY_SSIZE_T_MAX ->
  Permutation (sentiment_data st) (sentiment_data st') ->
  fst (get_geographical_trends st) = Ok out ->
  exists out',
    fst (get_geographical_trends st') = Ok out' /\
    List.length out' = List.length out /\
    forall e, In e out ->
      exists e',
        In e' out' /\ same_key (entry_region e') (entry_region e) = true /\
        entry_count e' = entry_count e /\
        entry_type e' = entry_type e /\
        entry_coords e' = entry_coords e /\
        entry_country_code e' = entry_country_code e.
Proof.
  intros Hlen HP Hrun.
  destruct (returns_when_ok st') as (out' & Hrun').
  { rewrite <- (Permutation_length HP). exact Hlen. }
  { apply (Permutation_Forall HP). apply (returned_ok st out Hrun). }
  exists out'. split; [exact Hrun'|]. split.
  - rewrite (returned_length st out Hrun), (returned_length st' out' Hrun').
    apply Permutation_length. apply NoDup_Permutation; try apply NoDup_nodup.
    intro c. rewrite !nodup_In. split; apply Permutation_in.
    + apply Permutation_sym, Permutation_map, Permutation_map. exact HP.
    + apply Permutation_map, Permutation_map. exact HP.
  - intros e He.
    destruct (entry_fields st out e Hrun He) as (Hne & Hc & _ & Hco & Hcc & Hty).
    pose proof (region_sentiments_permutation (entry_region e) _ _ HP) as HPs.
    assert (Hne' : region_sentiments (entry_region e) (sentiment_data st') <> []).
    { intro E. rewrite E in HPs. apply Permutation_sym, Permutation_nil in HPs.
      exact (Hne HPs). }
    destruct (returned_has_entry float_of_str st' out' (entry_region e) Hrun' Hne')
      as (e' & He' & Hk & _).
    destruct (entry_fields st' out' e' Hrun' He') as (_ & Hc' & _ & Hco' & Hcc' & Hty').
    exists e'. split; [exact He'|]. split; [exact Hk|].
    rewrite (region_sentiments_same_key float_of_str _ _ _ Hk) in Hc'.
    rewrite (find_same_key _ _ location_coords Hk) in Hco', Hcc', Hty'.
    rewrite (find_same_key _ _ country_codes Hk) in Hcc'.
    repeat split; try congruence.
    rewrite Hc, Hc', (Permutation_length HPs). reflexivity.
Qed.

Lemma first_occurrences_app (l l' : list json) :
  exists rest, first_occurrences (l ++ l') = first_occurrences l ++ rest.
Proof.
  induction l' as [|k l' IH] using rev_ind.
  - exists []. rewrite !app_nil_r. reflexivity.
  - destruct IH as (rest & IH). rewrite app_assoc, first_occurrences_snoc, IH.
    destruct (existsb _ _); [exists rest|exists (rest ++ [k])].
    + reflexivity.
    + rewrite app_assoc. reflexivity.
Qed.

Lemma region_sentiments_app (k : json) (l l' : list record) :
  region_sentiments k (l ++ l') = region_sentiments k l ++ region_sentiments k l'.
Proof.
  induction l as [|x t IH]; simpl; [reflexivity|].
  rewrite IH. destruct (item_sentiment x); [|reflexivity].
  destruct (same_key (item_region x) k); reflexivity.
Qed.

Lemma returned_region_list (st : frame) (out : list geo_result) :
  fst (get_geographical_trends st) = Ok out ->
  map entry_region out = first_occurrences (map item_region (sentiment_data st)).
Proof.
  intro Hrun. destruct (returned float_of_str st out Hrun) as (d & Hg & HF).
  destruct (returned_regions float_of_str st out d Hg HF) as [Hreg _].
  rewrite Hreg. apply (group_loop_keys float_of_str _ d Hg).
Qed.

(** X14: when records are added at the end of the input, the regions
    already in the output keep their places, the new ones come after them,
    and no count goes down. *)
Theorem more_records_extend_the_output (st st' : frame) (more : list record)
    (out out' : list geo_result) :
  sentiment_data st' = sentiment_data st ++ more ->
  fst (get_geographical_trends st) = Ok out ->
  fst (get_geographical_trends st') = Ok out' ->
  (exists rest, map entry_region out' = map entry_region out ++ rest) /\
  forall e, In e out ->
    exists e',
      In e' out' /\ entry_region e' = entry_region e /\
      entry_count e <= entry_count e'.
Proof.
  intros Hdata Hrun Hrun'.
  assert (Hpre : exists rest, map entry_region out' = map entry_region out ++ rest).
  { rewrite (returned_region_list st out Hrun), (returned_region_list st' out' Hrun').
    rewrite Hdata, map_app. apply first_occurrences_app. }
  split; [exact Hpre|]. intros e He. destruct Hpre as (rest & Hpre).
  assert (Hin : In (entry_region e) (map entry_region out')).
  { rewrite Hpre. apply in_or_app. left. apply in_map. exact He. }
  apply in_map_iff in Hin. destruct Hin as (e' & Hreg & He').
  exists e'. split; [exact He'|]. split; [exact Hreg|].
  destruct (entry_fields st out e Hrun He) as (_ & Hc & _).
  destruct (entry_fields st' out' e' Hrun' He') as (_ & Hc' & _).
  rewrite Hc, Hc', Hreg, Hdata, region_sentiments_app, length_app. lia.
Qed.

Lemma first_occurrences_find (l : list json) (x : json) :
  In x (first_occurrences l) -> List.find (fun y => same_key y x) l = Some x.
Proof.
  induction l as [|a t IH]; simpl; [contradiction|].
  intros [->|Hin].
  - rewrite same_key_refl. reflexivity.
  - apply filter_In in Hin. destruct Hin as [Hin Hneg].
    apply negb_true_iff in Hneg. rewrite Hneg. apply IH. exact Hin.
Qed.

Lemma find_records_of (k : json) (items : list record) :
  List.find (fun y => same_key y k) (map item_region items)
  = List.find (fun y => same_key y k) (map item_region (records_of k items)).
Proof.
  unfold records_of. induction items as [|x t IH]; simpl; [reflexivity|].
  destruct (same_key (item_region x) k) eqn:E; simpl; rewrite ?E; [reflexivity|exact IH].
Qed.

Lemma region_sentiments_records_of (k : json) (items : list record) :
  region_sentiments k items = region_sentiments k (records_of k items).
Proof.
  unfold records_of. induction items as [|x t IH]; simpl; [reflexivity|].
  destruct (same_key (item_region x) k) eqn:E; simpl; rewrite ?E, IH;
    destruct (item_sentiment x); reflexivity.
Qed.

Lemma find_same_key_pred (k k' : json) (l : list json) :
  same_key k k' = true ->
  List.find (fun y => same_key y k) l = List.find (fun y => same_key y k') l.
Proof.
  intro H. induction l as [|a t IH]; simpl; [reflexivity|].
  rewrite (same_key_congr_r k k' a H), IH. reflexivity.
Qed.

(** X15: the entry of a region depends on the records of that region only:
    two inputs with the same records of a region, in the same order, have
    the same entry for it, whatever their other records are. *)
Theorem entry_depends_on_its_records (st st' : frame) (out out' : list geo_result)
    (k : json) (e e' : geo_result) :
  fst (get_geographical_trends st) = Ok out ->
  fst (get_geographical_trends st') = Ok out' ->
  records_of k (sentiment_data st) = records_of k (sentiment_data st') ->
  In e out -> same_key (entry_region e) k = true ->
  In e' out' -> same_key (entry_region e') k = true ->
  e = e'.
Proof.
  intros Hrun Hrun' Hsame He Hk He' Hk'.
  assert (Hreg : forall s o x, fst (get_geographical_trends s) = Ok o -> In x o ->
            same_key (entry_region x) k = true ->
            List.find (fun y => same_key y k) (map item_region (records_of k (sentiment_data s)))
            = Some (entry_region x)).
  { intros s o x Hs Hx Hxk. rewrite <- find_records_of.
    rewrite <- (find_same_key_pred _ _ _ Hxk). apply first_occurrences_find.
    rewrite <- (returned_region_list s o Hs). apply in_map. exact Hx. }
  assert (Hr : entry_region e = entry_region e').
  { pose proof (Hreg st out e Hrun He Hk) as H1.
    pose proof (Hreg st' out' e' Hrun' He' Hk') as H2.
    rewrite Hsame in H1. congruence. }
  destruct (returned_entry float_of_str st out e Hrun He) as (c & _ & Hc & Heq).
  destruct (returned_entry float_of_str st' out' e' Hrun' He') as (c' & _ & Hc' & Heq').
  cbv zeta in Hc, Heq, Hc', Heq'.
  rewrite (region_sentiments_same_key float_of_str _ _ _ Hk),
    (region_sentiments_records_of k), Hsame in Hc, Heq.
  rewrite (region_sentiments_same_key float_of_str _ _ _ Hk'),
    (region_sentiments_records_of k) in Hc', Heq'.
  assert (c = c') by congruence. subst c'.
  rewrite Heq, Heq', Hr. reflexivity.
Qed.

(** X16: every entry of a returned list has a count of at least 1 and at
    most the number of records, a sentiment that is a [float], and a region
    that can be a key; it is of type ["city"], with the coordinates of the
    table and no country code, exactly when its region is a key of the city
    table, and of type ["country"] otherwise. *)
Theorem entries_are_well_formed (st : frame) (out : list geo_result) (e : geo_result) :
  fst (get_geographical_trends st) = Ok out ->
  In e out ->
  1 <= entry_count e <= Z.of_nat (List.length (sentiment_data st)) /\
  (exists x, entry_sentiment e = PyFloat x) /\
  hashable (entry_region e) = true /\
  match Dict.find (entry_region e) location_coords with
  | Some p =>
      entry_type e = "city"%string /\ entry_coords e = Some (lat p, lon p) /\
      entry_country_code e = None
  | None =>
      entry_type e = "country"%string /\ entry_coords e = None /\
      exists code, entry_country_code e = Some code
  end.
Proof.
  intros Hrun He.
  destruct (entry_fields st out e Hrun He) as (Hne & Hc & Hs & Hco & Hcc & Hty).
  split; [|split; [exact Hs|split]].
  - rewrite Hc.
    pose proof (region_sentiments_length float_of_str (entry_region e) (sentiment_data st)).
    destruct (region_sentiments (entry_region e) (sentiment_data st)); [congruence|].
    simpl in *. lia.
  - pose proof (returned_ok st out Hrun) as Hok. rewrite Forall_forall in Hok.
    assert (Hin : In (entry_region e) (map item_region (sentiment_data st))).
    { apply first_occurrences_incl. rewrite <- (returned_region_list st out Hrun).
      apply in_map. exact He. }
    apply in_map_iff in Hin. destruct Hin as (item & <- & Hitem).
    apply (Hok item Hitem).
  - destruct (Dict.find (entry_region e) location_coords) as [p|].
    + repeat split; assumption.
    + split; [exact Hty|]. split; [exact Hco|]. eexists. exact Hcc.
Qed.

End Routine.

(** X18: no label is a key of both tables, so the precedence of the city
    table never hides a country code; the city table has 15 keys and the
    country table 10. *)
Theorem tables_do_not_overlap :
  (forall k, Dict.mem k location_coords = true -> Dict.mem k country_codes = false) /\
  List.length (Dict.keys location_coords) = 15%nat /\
  List.length (Dict.keys country_codes) = 10%nat.
Proof.
  split; [|split; reflexivity].
  intros k Hk. unfold Dict.mem in Hk.
  destruct (Dict.find k location_coords) as [p|] eqn:Hf; [clear Hk|discriminate].
  destruct (find_In _ _ _ Hf) as (k0 & Hin & Hsame).
  vm_compute in Hin.
  repeat (destruct Hin as [Hin|Hin];
          [injection Hin as <- _; apply same_key_str in Hsame; subst k;
           vm_compute; reflexivity|]).
  destruct Hin.
Qed.

End RoutineFacts.
(** ** The endpoints *)

Module ApiFacts.

Import Py Geo Api KeyFacts DictFacts DirFacts RoutineFacts.
Local Open Scope string_scope.

Lemma glob_none (names : list string) :
  (forall n, In n names -> matches n = false) -> glob names = [].
Proof.
  intro H. unfold glob. induction names as [|n t IH]; simpl; [reflexivity|].
  rewrite (H n) by (left; reflexivity). apply IH.
  intros n' Hn'. apply H. right. exact Hn'.
Qed.

Lemma filter_region_objects (r : string) (records : list record) :
  filter_region r (objects records) = Done (objects (filter (has_region r) records)).
Proof.
  unfold objects. induction records as [|m t IH]; [reflexivity|].
  cbn [map filter_region filter]. rewrite IH. cbn [and_then].
  destruct (has_region r m); reflexivity.
Qed.

Lemma filter_region_not_object (r : string) (items : list json) :
  existsb (fun v => negb (is_object v)) items = true ->
  filter_region r items = Threw AttributeError.
Proof.
  induction items as [|item t IH]; [discriminate|].
  destruct item; try reflexivity.
  cbn [existsb is_object negb orb filter_region]. intro H. rewrite (IH H). reflexivity.
Qed.

Lemma select_objects (members : record) (key : string) (region : option string)
    (records : list record) :
  dict_get members key (JArr []) = JArr (objects records) ->
  select (JObj members) key region = Done (JArr (objects (narrowed region records))).
Proof.
  intro H. unfold select, data_get, narrowed. cbn [and_then]. rewrite H.
  destruct region as [r|]; [|reflexivity].
  destruct (truthy (Some r)); [|reflexivity].
  cbn [py_iter and_then]. rewrite filter_region_objects. reflexivity.
Qed.

Lemma select_not_objects (members : record) (key : string) (region : option string)
    (items : list json) :
  dict_get members key (JArr []) = JArr items ->
  existsb (fun v => negb (is_object v)) items = true ->
  select (JObj members) key region =
  if truthy region then Threw AttributeError else Done (JArr items).
Proof.
  intros H Hex. unfold select, data_get. cbn [and_then]. rewrite H.
  destruct region as [r|]; [|reflexivity].
  destruct (truthy (Some r)); [|reflexivity].
  cbn [py_iter and_then]. rewrite (filter_region_not_object r items Hex). reflexivity.
Qed.

Section Endpoints.

Variable validate : record -> option TrendData.
Variable float_of_str : string -> option float.

Local Abbreviation get_popularity_trends := (get_popularity_trends validate).
Local Abbreviation geographical_endpoint := (geographical_endpoint float_of_str).
Local Abbreviation aggregate_snapshot := (aggregate_snapshot float_of_str).

(** X3: when no name of the directory matches the pattern, the four
    endpoints return the empty list, whatever the region parameter; this is
    not an error. *)
Theorem no_snapshot_is_empty (env : data_dir) (region : option string) :
  (forall n, In n (listing env) -> matches n = false) ->
  get_popularity_trends env region = Returned [] /\
  get_sentiment_trends env region = Returned (JArr []) /\
  get_temporal_trends env region = Returned (JArr []) /\
  geographical_endpoint env = Returned [].
Proof.
  intro H.
  unfold Api.get_popularity_trends, get_sentiment_trends, get_temporal_trends,
    Api.geographical_endpoint, load_latest.
  rewrite (glob_none _ H). repeat split; reflexivity.
Qed.

(** X4: a snapshot that is an object without the key of an endpoint gives
    the empty list there, with or without a region parameter. *)
Theorem missing_key_is_empty (env : data_dir) (members : record)
    (region : option string) :
  load_latest env = Done (Some (JObj members)) ->
  ((forall v, ~ In ("popularity", v) members) ->
   get_popularity_trends env region = Returned []) /\
  ((forall v, ~ In ("sentiment", v) members) ->
   get_sentiment_trends env region = Returned (JArr []) /\
   geographical_endpoint env = Returned []) /\
  ((forall v, ~ In ("temporal", v) members) ->
   get_temporal_trends env region = Returned (JArr [])).
Proof.
  intro Hload.
  assert (Hsel : forall key, (forall v, ~ In (key, v) members) ->
            select (JObj members) key region = Done (JArr [])).
  { intros key Hmiss.
    rewrite (select_objects members key region []).
    - destruct region as [r|]; [|reflexivity]. unfold narrowed.
      destruct (truthy (Some r)); reflexivity.
    - apply dict_get_missing. exact Hmiss. }
  split; [|split].
  - intro Hmiss. unfold Api.get_popularity_trends. rewrite Hload. cbn [and_then].
    rewrite (Hsel _ Hmiss). reflexivity.
  - intro Hmiss. split.
    + unfold get_sentiment_trends. rewrite Hload. cbn [and_then].
      rewrite (Hsel _ Hmiss). reflexivity.
    + unfold Api.geographical_endpoint. rewrite Hload. cbn [and_then].
      unfold Api.aggregate_snapshot, data_get. cbn [and_then].
      rewrite (dict_get_missing members "sentiment" (JArr []) Hmiss). reflexivity.
  - intro Hmiss. unfold get_temporal_trends. rewrite Hload. cbn [and_then].
    rewrite (Hsel _ Hmiss). reflexivity.
Qed.

(** X5: on a snapshot whose list is a list of objects, [/trends/sentiment]
    and [/trends/temporal] return the objects whose region is the string
    given as parameter, in their order; all the objects when the parameter
    is absent or empty. *)
Theorem region_parameter_selects (env : data_dir) (members : record)
    (region : option string) (records : list record) :
  load_latest env = Done (Some (JObj members)) ->
  (dict_get members "sentiment" (JArr []) = JArr (objects records) ->
   get_sentiment_trends env region
   = Returned (JArr (objects (narrowed region records)))) /\
  (dict_get members "temporal" (JArr []) = JArr (objects records) ->
   get_temporal_trends env region
   = Returned (JArr (objects (narrowed region records)))).
Proof.
  intro Hload. split; intro H.
  - unfold get_sentiment_trends. rewrite Hload. cbn [and_then].
    rewrite (select_objects _ _ region records H). reflexivity.
  - unfold get_temporal_trends. rewrite Hload. cbn [and_then].
    rewrite (select_objects _ _ region records H). reflexivity.
Qed.

(** X6: when the list of the snapshot has an element that is not an
    object, [/trends/sentiment] and [/trends/temporal] fail with status 500
    for a non-empty region parameter, and return the list as it is, the
    element included, without one. *)
Theorem region_parameter_needs_objects (env : data_dir) (members : record)
    (region : option string) (items : list json) :
  load_latest env = Done (Some (JObj members)) ->
  existsb (fun v => negb (is_object v)) items = true ->
  (dict_get members "sentiment" (JArr []) = JArr items ->
   get_sentiment_trends env region
   = if truthy region then HTTPError 500 AttributeError else Returned (JArr items)) /\
  (dict_get members "temporal" (JArr []) = JArr items ->
   get_temporal_trends env region
   = if truthy region then HTTPError 500 AttributeError else Returned (JArr items)).
Proof.
  intros Hload Hex. split; intro H.
  - unfold get_sentiment_trends. rewrite Hload. cbn [and_then].
    rewrite (select_not_objects _ _ region items H Hex).
    destruct (truthy region); reflexivity.
  - unfold get_temporal_trends. rewrite Hload. cbn [and_then].
    rewrite (select_not_objects _ _ region items H Hex).
    destruct (truthy region); reflexivity.
Qed.

Local Abbreviation grouping_item := (grouping_item float_of_str).
Local Abbreviation grouping_body := (grouping_body float_of_str).
Local Abbreviation group_loop := (group_loop float_of_str).
Local Abbreviation get_geographical_trends := (get_geographical_trends float_of_str).

(** X7: whatever stops the snapshot from being read stops the four
    endpoints with status 500 and that cause, and so does a snapshot that
    is not an object, with an [AttributeError]. *)
Theorem unreadable_snapshot_is_500 (env : data_dir) (region : option string) :
  (forall c, load_latest env = Threw c ->
     get_popularity_trends env region = HTTPError 500 c /\
     get_sentiment_trends env region = HTTPError 500 c /\
     get_temporal_trends env region = HTTPError 500 c /\
     geographical_endpoint env = HTTPError 500 c) /\
  (forall data, load_latest env = Done (Some data) -> is_object data = false ->
     get_popularity_trends env region = HTTPError 500 AttributeError /\
     get_sentiment_trends env region = HTTPError 500 AttributeError /\
     get_temporal_trends env region = HTTPError 500 AttributeError /\
     geographical_endpoint env = HTTPError 500 AttributeError).
Proof.
  split.
  - intros c H.
    unfold Api.get_popularity_trends, get_sentiment_trends, get_temporal_trends,
      Api.geographical_endpoint.
    rewrite H. repeat split; reflexivity.
  - intros data H Hobj.
    unfold Api.get_popularity_trends, get_sentiment_trends, get_temporal_trends,
      Api.geographical_endpoint.
    rewrite H. destruct data; try discriminate; repeat split; reflexivity.
Qed.

Lemma for_each_item_objects (records : list record) (st : frame) :
  for_each_item (objects records) grouping_item st
  = lift (for_each records grouping_body) st.
Proof.
  unfold objects. revert st. induction records as [|m t IH]; intro st; [reflexivity|].
  cbn [map for_each_item for_each Api.grouping_item]. unfold lift, bind.
  destruct (Geo.grouping_body float_of_str m st) as [[u|e] st']; cbn [fst snd of_outcome].
  - rewrite IH. reflexivity.
  - reflexivity.
Qed.

Lemma for_each_item_app (l1 l2 : list json) (body : json -> E unit) (st : frame) :
  for_each_item (l1 ++ l2) body st =
  match for_each_item l1 body st with
  | (Done _, st') => for_each_item l2 body st'
  | (Threw c, st') => (Threw c, st')
  end.
Proof.
  revert st. induction l1 as [|x t IH]; intro st; [reflexivity|].
  cbn [app for_each_item]. destruct (body x st) as [[u|c] st']; [apply IH|reflexivity].
Qed.

Lemma aggregate_snapshot_objects (members : record) (records : list record) :
  dict_get members "sentiment" (JArr []) = JArr (objects records) ->
  match fst (get_geographical_trends (fresh records)) with
  | Ok out => aggregate_snapshot (JObj members) = Done out
  | Raise (HTTPException code e) =>
      aggregate_snapshot (JObj members) = Threw (Builtin e) /\ code = 500%Z
  | Raise _ => False
  end.
Proof.
  intros Hval.
  unfold Api.aggregate_snapshot, data_get. cbn [and_then]. rewrite Hval.
  cbn [py_iter and_then]. rewrite for_each_item_objects.
  rewrite RunFacts.get_geographical_trends_run. cbv zeta.
  unfold lift. rewrite RunFacts.for_each_grouping, RunFacts.result_pass_run.
  cbn [fst snd assign_region_sentiment fresh region_sentiment sentiment_data
       set_region_sentiment geographical_data set_geographical_data].
  destruct (fst (group_loop [] records)) as [[]|e]; cbn [of_outcome];
    [|split; reflexivity].
  destruct (fst (Geo.result_loop [] (snd (group_loop [] records)))) as [[]|e];
    [reflexivity|split; reflexivity].
Qed.

(** X8: on a snapshot whose ["sentiment"] value is a list of objects, the
    geographical endpoint returns what the aggregation returns on these
    objects, and fails with status 500 and the same cause when the
    aggregation fails. *)
Theorem geographical_endpoint_aggregates (env : data_dir) (members : record)
    (records : list record) :
  load_latest env = Done (Some (JObj members)) ->
  dict_get members "sentiment" (JArr []) = JArr (objects records) ->
  match fst (get_geographical_trends (fresh records)) with
  | Ok out => geographical_endpoint env = Returned out
  | Raise (HTTPException code e) => geographical_endpoint env = HTTPError code (Builtin e)
  | Raise _ => False
  end.
Proof.
  intros Hload Hval.
  unfold Api.geographical_endpoint. rewrite Hload. cbn [and_then].
  pose proof (aggregate_snapshot_objects members records Hval) as H.
  destruct (fst (get_geographical_trends (fresh records))) as [out|e].
  - rewrite H. reflexivity.
  - destruct e; try contradiction. destruct H as [-> ->]. reflexivity.
Qed.

(** X9: when the list under ["sentiment"] has an element that is not an
    object, the geographical endpoint never returns: it fails with status
    500, with the cause the objects before that element give when one of
    them is malformed, and with an [AttributeError] otherwise. *)
Theorem geographical_endpoint_needs_objects (env : data_dir) (members : record)
    (before : list record) (bad : json) (after : list json) :
  load_latest env = Done (Some (JObj members)) ->
  dict_get members "sentiment" (JArr []) = JArr (objects before ++ bad :: after) ->
  is_object bad = false ->
  geographical_endpoint env =
  HTTPError 500
    match fst (group_loop [] before) with
    | Ok _ => AttributeError
    | Raise e => Builtin e
    end.
Proof.
  intros Hload Hval Hbad.
  unfold Api.geographical_endpoint. rewrite Hload. cbn [and_then].
  unfold Api.aggregate_snapshot, data_get. cbn [and_then]. rewrite Hval.
  cbn [py_iter and_then]. rewrite for_each_item_app, for_each_item_objects.
  unfold lift. rewrite RunFacts.for_each_grouping.
  cbn [fst snd assign_region_sentiment fresh region_sentiment set_region_sentiment].
  destruct (fst (group_loop [] before)) as [[]|e]; cbn [of_outcome]; [|reflexivity].
  cbn [for_each_item]. destruct bad; try discriminate; reflexivity.
Qed.

(** X10: a ["sentiment"] value that is [null], a boolean or a number
    cannot be iterated: the geographical endpoint fails with status 500, and
    so does [/trends/sentiment] with a non-empty region parameter, while
    without one it returns the value as it is. *)
Theorem scalar_sentiment_value (env : data_dir) (members : record)
    (region : option string) (v : json) :
  load_latest env = Done (Some (JObj members)) ->
  dict_get members "sentiment" (JArr []) = v ->
  is_scalar v = true ->
  geographical_endpoint env = HTTPError 500 (Builtin TypeError) /\
  get_sentiment_trends env region
  = if truthy region then HTTPError 500 (Builtin TypeError) else Returned v.
Proof.
  intros Hload Hval Hs. split.
  - unfold Api.geographical_endpoint. rewrite Hload. cbn [and_then].
    unfold Api.aggregate_snapshot, data_get. cbn [and_then]. rewrite Hval.
    destruct v; try discriminate; reflexivity.
  - unfold get_sentiment_trends. rewrite Hload. cbn [and_then].
    unfold select, data_get. cbn [and_then]. rewrite Hval.
    destruct region as [r|]; [|reflexivity].
    destruct (truthy (Some r)); [|reflexivity].
    destruct v; try discriminate; reflexivity.
Qed.

Lemma trend_data_list_objects (records : list record) :
  trend_data_list validate (objects records) =
  match traverse validate records with
  | Some ts => Done ts
  | None => Threw ValidationError
  end.
Proof.
  unfold objects. induction records as [|m t IH]; [reflexivity|].
  cbn [map trend_data_list trend_data traverse]. rewrite IH.
  destruct (validate m); [|reflexivity]. cbn [and_then].
  destruct (traverse validate t); reflexivity.
Qed.

(** X11: on a snapshot whose ["popularity"] value is a list of objects,
    [/trends/popularity] returns the validated form of each object kept by
    the region parameter, in their order; if one of them does not validate
    the whole request fails with status 500. *)
Theorem popularity_validates_each (env : data_dir) (members : record)
    (region : option string) (records : list record) :
  load_latest env = Done (Some (JObj members)) ->
  dict_get members "popularity" (JArr []) = JArr (objects records) ->
  get_popularity_trends env region =
  match traverse validate (narrowed region records) with
  | Some ts => Returned ts
  | None => HTTPError 500 ValidationError
  end.
Proof.
  intros Hload Hval. unfold Api.get_popularity_trends. rewrite Hload. cbn [and_then].
  rewrite (select_objects _ _ region records Hval). cbn [and_then py_iter].
  rewrite trend_data_list_objects.
  destruct (traverse validate (narrowed region records)); reflexivity.
Qed.

Lemma dict_get_default (m : record) (key : string) (d d' : json) :
  dict_get m key d = dict_get m key d' \/
  (dict_get m key d = d /\ dict_get m key d' = d').
Proof.
  revert d d'. induction m as [|[k v] t IH]; intros d d'; simpl; [auto|].
  destruct (String.eqb k key).
  - left. destruct (IH v v) as [H|[H1 H2]]; congruence.
  - apply IH.
Qed.

Lemma has_region_item_region (r : string) (m : record) :
  r <> "Unknown" ->
  same_key (item_region m) (JStr r) = has_region r m.
Proof.
  intro Hr. unfold has_region, item_region.
  destruct (dict_get_default m "region" (JStr "Unknown") JNull) as [H|[H1 H2]].
  - rewrite <- H. destruct (dict_get m "region" (JStr "Unknown")) eqn:E;
      try (apply same_key_false; simpl; try destruct (Prim2SF f); discriminate).
    destruct (String.eqb s r) eqn:Es.
    + apply String.eqb_eq in Es. subst. apply same_key_refl.
    + apply String.eqb_neq in Es. apply same_key_false. simpl. congruence.
  - rewrite H1, H2. apply same_key_false. simpl. congruence.
Qed.

Lemma region_sentiments_filter (r : string) (records : list record) :
  r <> "Unknown" ->
  Forall (record_ok float_of_str) records ->
  List.length (region_sentiments float_of_str (JStr r) records)
  = List.length (filter (has_region r) records).
Proof.
  intros Hr Hok. induction Hok as [|m t [[s Hs] _] Ht IH]; simpl; [reflexivity|].
  rewrite Hs, (has_region_item_region r m Hr).
  destruct (has_region r m); simpl; rewrite IH; reflexivity.
Qed.

(** X17: for a region [r] other than ["Unknown"], the count that the
    geographical endpoint gives for [r] is the number of objects that
    [/trends/sentiment] returns for the region parameter [r] on the same
    snapshot; there is an entry for [r] exactly when that list is not
    empty. *)
Theorem count_is_length_of_filtered_list (env : data_dir) (members : record)
    (records : list record) (out : list geo_result) (r : string) :
  load_latest env = Done (Some (JObj members)) ->
  dict_get members "sentiment" (JArr []) = JArr (objects records) ->
  geographical_endpoint env = Returned out ->
  r <> "" -> r <> "Unknown" ->
  let kept := filter (has_region r) records in
  get_sentiment_trends env (Some r) = Returned (JArr (objects kept)) /\
  (forall e, In e out -> entry_region e = JStr r ->
     kept <> [] /\ entry_count e = Z.of_nat (List.length kept)) /\
  (kept <> [] -> exists e, In e out /\ entry_region e = JStr r).
Proof.
  intros Hload Hval Hgeo Hne Hun kept.
  assert (Hrun : fst (get_geographical_trends (fresh records)) = Ok out).
  { pose proof (aggregate_snapshot_objects members records Hval) as H.
    unfold Api.geographical_endpoint in Hgeo. rewrite Hload in Hgeo.
    cbn [and_then] in Hgeo.
    destruct (fst (get_geographical_trends (fresh records))) as [o|e].
    - rewrite H in Hgeo. injection Hgeo as ->. reflexivity.
    - destruct e; try contradiction. destruct H as [H _]. rewrite H in Hgeo.
      discriminate Hgeo. }
  pose proof (returned_ok float_of_str _ _ Hrun) as Hok. cbn [fresh sentiment_data] in Hok.
  pose proof (region_sentiments_filter r records Hun Hok) as Hlen. fold kept in Hlen.
  split; [|split].
  - unfold get_sentiment_trends. rewrite Hload. cbn [and_then].
    rewrite (select_objects _ _ (Some r) records Hval). unfold narrowed, truthy.
    destruct (String.eqb r "") eqn:E; [apply String.eqb_eq in E; contradiction|].
    reflexivity.
  - intros e He Hreg.
    destruct (entry_fields float_of_str _ _ e Hrun He) as (Hnil & Hc & _).
    rewrite Hreg in Hnil, Hc. cbn [fresh sentiment_data] in Hnil, Hc.
    rewrite Hc, Hlen. split; [|reflexivity].
    intro E. rewrite E in Hlen. simpl in Hlen.
    apply Hnil. apply length_zero_iff_nil. exact Hlen.
  - intro Hkept.
    assert (Hnil : region_sentiments float_of_str (JStr r)
                     (sentiment_data (fresh records)) <> []).
    { cbn [fresh sentiment_data]. intro E. rewrite E in Hlen. simpl in Hlen.
      apply Hkept. apply length_zero_iff_nil. symmetry. exact Hlen. }
    destruct (RunFacts.returned_has_entry float_of_str _ _ _ Hrun Hnil)
      as (e & He & Hk & _).
    exists e. split; [exact He|].
    rewrite same_key_sym in Hk. apply same_key_str in Hk. exact Hk.
Qed.

End Endpoints.

End ApiFacts.

(** ** The builtins and the routine on concrete inputs *)

Module Examples.

Import Py Geo.
Local Open Scope Z_scope.
Local Open Scope string_scope.

Example py_round2_ties_to_even :
  map py_round2 [0.125; 0.375; 2.675; -0.001; 1.005]%float
  = [0.12; 0.38; 2.67; -0.0; 1.0]%float.
Proof. vm_compute. reflexivity. Qed.

Example float_of_ascii_accepts :
  map float_of_ascii [" 1.5 "; "1_000"; "-INF"; ".5e1"; "1e400"]
  = map Some [1.5; 1000; neg_infinity; 5; infinity]%float.
Proof. vm_compute. reflexivity. Qed.

Example float_of_ascii_rejects :
  map float_of_ascii ["abc"; ""; "1e"; "1__0"; "0x10"; "1,5"]
  = [None; None; None; None; None; None].
Proof. vm_compute. reflexivity. Qed.

Example float_of_int_overflows :
  float_of_int (2 ^ 53 + 1) = Some 9007199254740992%float /\
  float_of_int (2 ^ 1024) = None.
Proof. vm_compute. split; reflexivity. Qed.

Example same_key_numbers :
  same_key (JBool true) (JInt 1) = true /\
  same_key (JInt 1) (JFloat 1) = true /\
  same_key (JFloat 0) (JFloat (-0)) = true /\
  same_key (JInt 1) (JStr "1") = false /\
  same_key JNull (JStr "") = false.
Proof. vm_compute. repeat split; reflexivity. Qed.

Lemma sample_run :
  fst (get_geographical_trends float_of_ascii (fresh sample_records))
  = Ok sample_output.
Proof. vm_compute. reflexivity. Qed.


(** The call on [malformed_records] does not return: the string ["abc"]
    makes [float] raise [ValueError], which leaves the call as an
    [HTTPException] with status 500, although the record before it is well
    formed. *)
Lemma C1_malformed_sentiment_raises :
  fst (get_geographical_trends float_of_ascii (fresh malformed_records))
  = Raise (HTTPException 500 ValueError) /\
  ~ (exists out,
       fst (get_geographical_trends float_of_ascii (fresh malformed_records))
       = Ok out).
Proof.
  assert (H : fst (get_geographical_trends float_of_ascii (fresh malformed_records))
              = Raise (HTTPException 500 ValueError))
    by (vm_compute; reflexivity).
  split; [exact H|]. intros [out Hout]. rewrite H in Hout. discriminate Hout.
Qed.

(** A region that is [null] and a region that is the empty string are
    labels of their own: no entry of the output has region ["Unknown"]. *)
Lemma C2_null_and_empty_region_kept :
  fst (get_geographical_trends float_of_ascii (fresh blank_region_records))
  = Ok [CountryResult JNull "" (PyFloat 0.8) 1;
        CountryResult (JStr "") "" (PyFloat 0.8) 1] /\
  Forall (fun e => entry_region e <> JStr "Unknown")
    [CountryResult JNull "" (PyFloat 0.8) 1;
     CountryResult (JStr "") "" (PyFloat 0.8) 1].
Proof.
  split; [vm_compute; reflexivity|].
  repeat constructor; discriminate.
Qed.

(** With a region that is [null] and a missing one the output has two
    entries, while there is one label only once [null] is read as
    ["Unknown"]. *)
Lemma C7_null_is_a_label_of_its_own :
  fst (get_geographical_trends float_of_ascii (fresh null_and_missing_records))
  = Ok [CountryResult JNull "" (PyFloat 0.8) 1;
        CountryResult (JStr "Unknown") "" (PyFloat 0.8) 1] /\
  List.length [CountryResult JNull "" (PyFloat 0.8) 1;
               CountryResult (JStr "Unknown") "" (PyFloat 0.8) 1]
  <> distinct_labels null_as_unknown null_and_missing_records.
Proof. split; [vm_compute; reflexivity|vm_compute; discriminate]. Qed.

Lemma C1_witness :
  exists out,
    fst (get_geographical_trends float_of_ascii (fresh sample_records)) = Ok out.
Proof.
  destruct (RunFacts.C1_returns_when_records_convert float_of_ascii
              (fresh sample_records)) as [H _].
  - vm_compute. discriminate.
  - destruct H as (out & Hout & _).
    + unfold sample_records. cbn [fresh sentiment_data].
      repeat (apply Forall_cons;
              [split; [eexists; vm_compute; reflexivity|reflexivity]|]).
      apply Forall_nil.
    + exists out. exact Hout.
Defined.

Lemma C2_witness :
  item_region [("sentiment", JFloat 0.8)] = JStr "Unknown" /\
  exists e, In e sample_output /\ entry_region e = JStr "Unknown".
Proof.
  destruct (RunFacts.C2_missing_region_is_unknown float_of_ascii
              (fresh sample_records) sample_output [("sentiment", JFloat 0.8)])
    as [H _].
  - exact sample_run.
  - simpl. auto.
  - apply H. intros v [E|[]]. discriminate E.
Defined.

Lemma C3_witness :
  let ss := region_sentiments float_of_ascii (JStr "Toronto")
              (sentiment_data (fresh sample_records)) in
  let n := Z.of_nat (List.length ss) in
  exists e c,
    In e sample_output /\ same_key (entry_region e) (JStr "Toronto") = true /\
    (forall e', In e' sample_output ->
       same_key (entry_region e') (JStr "Toronto") = true -> e' = e) /\
    float_of_int n = Some c /\
    entry_count e = n /\
    entry_sentiment e = PyFloat (py_round2 (py_sum ss / c)).
Proof.
  apply (RunFacts.C3_mean_and_count float_of_ascii (fresh sample_records)
           sample_output (JStr "Toronto")).
  - exact sample_run.
  - vm_compute. discriminate.
Defined.

Lemma C4_witness :
  (exists e,
     In e sample_output /\ same_key (entry_region e) (JStr "Germany") = true /\
     entry_type e = "country" /\ entry_country_code e = Some "DEU") /\
  fst (get_geographical_trends float_of_ascii (fresh germany_records))
  = Ok [CountryResult (JStr "Germany") "DEU" (PyFloat 0.1) 2].
Proof.
  split.
  - apply (proj1 (RunFacts.C4_country_fallback float_of_ascii (fresh sample_records))
             sample_output [("region", JStr "Germany"); ("sentiment", JStr "0.25")]).
    + exact sample_run.
    + simpl. auto.
    + vm_compute. reflexivity.
  - apply (proj2 (RunFacts.C4_country_fallback float_of_ascii
                    (fresh germany_records))).
    reflexivity.
Defined.

Lemma C5_witness :
  exists s n, In (CityResult (JStr "Toronto") 43.6532 (-79.3832) s n) sample_output.
Proof.
  destruct (RunFacts.C5_city_first float_of_ascii (fresh sample_records)
              sample_output sample_run) as [_ H].
  apply (H [("region", JStr "Toronto")]).
  - simpl. auto.
  - reflexivity.
Defined.

Lemma C6_witness :
  map entry_region sample_output
  = first_occurrences (map item_region (sentiment_data (fresh sample_records))) /\
  NoDup (map key_norm (map entry_region sample_output)).
Proof.
  apply (RunFacts.C6_first_seen_order float_of_ascii (fresh sample_records)).
  exact sample_run.
Defined.

Lemma C7_witness :
  List.length sample_output = distinct_regions (sentiment_data (fresh sample_records)) /\
  fst (get_geographical_trends float_of_ascii (fresh [])) = Ok [].
Proof.
  split.
  - apply (proj1 (RunFacts.C7_one_entry_per_region float_of_ascii
                    (fresh sample_records))).
    exact sample_run.
  - apply (proj2 (RunFacts.C7_one_entry_per_region float_of_ascii (fresh []))).
    reflexivity.
Defined.

Lemma C8_witness :
  let v := {| total_sentiment := 0.5; count := 2 |} in
  (1 <= count v)%Z /\ avg_sentiment v <> Ok (PyInt 0).
Proof.
  destruct (RunFacts.C8_count_at_least_one float_of_ascii (fresh sample_records)
              (JStr "Toronto") {| total_sentiment := 0.5; count := 2 |})
    as (H1 & _ & _ & H2 & _).
  - vm_compute. left. reflexivity.
  - split; [exact H1|exact H2].
Defined.

Lemma C9_witness :
  fst (get_geographical_trends float_of_ascii
         (snd (get_geographical_trends float_of_ascii (fresh sample_records))))
  = fst (get_geographical_trends float_of_ascii (fresh sample_records)).
Proof.
  exact (proj1 (proj2 (RunFacts.C9_pure float_of_ascii (fresh sample_records)))).
Defined.

Lemma C10_witness :
  sum_counts sample_output = Z.of_nat (List.length (sentiment_data (fresh sample_records))).
Proof.
  apply (RunFacts.C10_counts_add_up float_of_ascii (fresh sample_records)).
  exact sample_run.
Defined.

End Examples.

(** ** The endpoints on sample directories *)

Module ApiExamples.

Import Py Geo Api.
Local Open Scope Z_scope.
Local Open Scope string_scope.

Lemma sample_dir_loads : load_latest sample_dir = Done (Some sample_snapshot).
Proof. vm_compute. reflexivity. Qed.

Lemma latest_snapshot_is_greatest_witness :
  exists name mid,
    In name (listing sample_dir) /\
    name = "processed_data_" ++ mid ++ ".json" /\
    (forall n mid', In n (listing sample_dir) ->
       n = "processed_data_" ++ mid' ++ ".json" -> (n <=? name)%string = true) /\
    load_latest sample_dir =
    match content sample_dir ("data/" ++ name) with
    | Parsed data => Done (Some data)
    | Unreadable e => Threw (File e)
    end.
Proof.
  apply (DirFacts.latest_snapshot_is_greatest sample_dir).
  exists "processed_data_20240101.json". split; [simpl; auto|reflexivity].
Defined.

Lemma load_latest_order_independent_witness :
  load_latest {| listing := listing sample_dir; content := content sample_dir |}
  = load_latest {| listing := rev (listing sample_dir); content := content sample_dir |}.
Proof.
  apply (DirFacts.load_latest_order_independent (listing sample_dir)
           (rev (listing sample_dir)) (content sample_dir)).
  apply Permutation_rev.
Defined.

Lemma no_snapshot_is_empty_witness :
  get_popularity_trends strict_validate empty_dir (Some "Toronto") = Returned [] /\
  get_sentiment_trends empty_dir (Some "Toronto") = Returned (JArr []) /\
  get_temporal_trends empty_dir (Some "Toronto") = Returned (JArr []) /\
  geographical_endpoint float_of_ascii empty_dir = Returned [].
Proof.
  apply (ApiFacts.no_snapshot_is_empty strict_validate float_of_ascii empty_dir
           (Some "Toronto")).
  intros n [<-|[<-|[]]]; reflexivity.
Defined.

Lemma missing_key_is_empty_witness :
  get_temporal_trends sample_dir (Some "Toronto") = Returned (JArr []).
Proof.
  apply (ApiFacts.missing_key_is_empty strict_validate float_of_ascii sample_dir
           [("popularity", JArr (objects sample_popularity));
            ("sentiment", JArr (objects sample_records))]
           (Some "Toronto")).
  - exact sample_dir_loads.
  - intros v [E|[E|[]]]; discriminate E.
Defined.

Lemma region_parameter_selects_witness :
  get_sentiment_trends sample_dir (Some "Toronto")
  = Returned (JArr (objects (narrowed (Some "Toronto") sample_records))).
Proof.
  apply (ApiFacts.region_parameter_selects sample_dir
           [("popularity", JArr (objects sample_popularity));
            ("sentiment", JArr (objects sample_records))]
           (Some "Toronto") sample_records).
  - exact sample_dir_loads.
  - reflexivity.
Defined.

Lemma region_parameter_needs_objects_witness :
  get_sentiment_trends mixed_dir (Some "Toronto") = HTTPError 500 AttributeError.
Proof.
  apply (ApiFacts.region_parameter_needs_objects mixed_dir
           [("sentiment",
             JArr (objects [[("region", JStr "Toronto"); ("sentiment", JFloat 0.5)]]
                   ++ [JInt 3]))]
           (Some "Toronto")
           (objects [[("region", JStr "Toronto"); ("sentiment", JFloat 0.5)]]
            ++ [JInt 3])%list).
  - reflexivity.
  - reflexivity.
  - reflexivity.
Defined.

Lemma unreadable_snapshot_is_500_witness :
  geographical_endpoint float_of_ascii broken_dir
  = HTTPError 500 (File JSONDecodeError).
Proof.
  apply (proj1 (ApiFacts.unreadable_snapshot_is_500 strict_validate float_of_ascii
                  broken_dir None) (File JSONDecodeError)).
  reflexivity.
Defined.

Lemma geographical_endpoint_aggregates_witness :
  geographical_endpoint float_of_ascii sample_dir = Returned sample_output.
Proof.
  pose proof (ApiFacts.geographical_endpoint_aggregates float_of_ascii sample_dir
                [("popularity", JArr (objects sample_popularity));
                 ("sentiment", JArr (objects sample_records))]
                sample_records sample_dir_loads eq_refl) as H.
  rewrite Examples.sample_run in H. exact H.
Defined.

Lemma geographical_endpoint_needs_objects_witness :
  geographical_endpoint float_of_ascii mixed_dir = HTTPError 500 AttributeError.
Proof.
  apply (ApiFacts.geographical_endpoint_needs_objects float_of_ascii mixed_dir
           [("sentiment",
             JArr (objects [[("region", JStr "Toronto"); ("sentiment", JFloat 0.5)]]
                   ++ [JInt 3]))]
           [[("region", JStr "Toronto"); ("sentiment", JFloat 0.5)]]
           (JInt 3) []).
  - reflexivity.
  - reflexivity.
  - reflexivity.
Defined.

Lemma scalar_sentiment_value_witness :
  geographical_endpoint float_of_ascii scalar_dir = HTTPError 500 (Builtin TypeError) /\
  get_sentiment_trends scalar_dir None = Returned (JInt 5).
Proof.
  apply (ApiFacts.scalar_sentiment_value float_of_ascii scalar_dir
           [("sentiment", JInt 5)] None (JInt 5)); reflexivity.
Defined.

Lemma popularity_validates_each_witness :
  get_popularity_trends strict_validate sample_dir (Some "Toronto") =
  match traverse strict_validate (narrowed (Some "Toronto") sample_popularity) with
  | Some ts => Returned ts
  | None => HTTPError 500 ValidationError
  end.
Proof.
  apply (ApiFacts.popularity_validates_each strict_validate sample_dir
           [("popularity", JArr (objects sample_popularity));
            ("sentiment", JArr (objects sample_records))]
           (Some "Toronto") sample_popularity).
  - exact sample_dir_loads.
  - reflexivity.
Defined.

Lemma failure_is_first_malformed_record_witness :
  exists before item after cause,
    sentiment_data (fresh malformed_records) = (before ++ item :: after)%list /\
    Forall (record_ok float_of_ascii) before /\
    ~ record_ok float_of_ascii item /\
    cause = match item_sentiment float_of_ascii item with
            | Raise x => x
            | Ok _ => TypeError
            end /\
    (cause = ValueError \/ cause = TypeError \/ cause = OverflowError) /\
    HTTPException 500 ValueError = HTTPException 500 cause.
Proof.
  apply (RoutineFacts.failure_is_first_malformed_record float_of_ascii
           (fresh malformed_records) (HTTPException 500 ValueError)).
  - vm_compute. discriminate.
  - vm_compute. reflexivity.
Defined.

Lemma order_of_records_keeps_counts_witness :
  exists out',
    fst (get_geographical_trends float_of_ascii (fresh (rev sample_records))) = Ok out' /\
    List.length out' = List.length sample_output /\
    forall e, In e sample_output ->
      exists e',
        In e' out' /\ same_key (entry_region e') (entry_region e) = true /\
        entry_count e' = entry_count e /\
        entry_type e' = entry_type e /\
        entry_coords e' = entry_coords e /\
        entry_country_code e' = entry_country_code e.
Proof.
  apply (RoutineFacts.order_of_records_keeps_counts float_of_ascii
           (fresh sample_records) (fresh (rev sample_records)) sample_output).
  - vm_compute. discriminate.
  - apply Permutation_rev.
  - exact Examples.sample_run.
Defined.

Lemma more_records_extend_the_output_witness :
  exists rest,
    map entry_region
      [CountryResult (JStr "Germany") "DEU" (PyFloat 0.15) 3;
       CityResult (JStr "Toronto") 43.6532 (-79.3832) (PyFloat 0.25) 2;
       CountryResult (JStr "Unknown") "" (PyFloat 0.8) 1;
       CountryResult JNull "" (PyFloat 1) 1]
    = (map entry_region [CountryResult (JStr "Germany") "DEU" (PyFloat 0.1) 2]
       ++ rest)%list.
Proof.
  apply (RoutineFacts.more_records_extend_the_output float_of_ascii
           (fresh germany_records) (fresh (germany_records ++ sample_records)%list)
           sample_records).
  - reflexivity.
  - vm_compute. reflexivity.
  - vm_compute. reflexivity.
Defined.

Lemma entry_depends_on_its_records_witness :
  CityResult (JStr "Toronto") 43.6532 (-79.3832) (PyFloat 0.25) 2
  = CityResult (JStr "Toronto") 43.6532 (-79.3832) (PyFloat 0.25) 2.
Proof.
  apply (RoutineFacts.entry_depends_on_its_records float_of_ascii
           (fresh sample_records) (fresh (germany_records ++ sample_records)%list)
           sample_output
           [CountryResult (JStr "Germany") "DEU" (PyFloat 0.15) 3;
            CityResult (JStr "Toronto") 43.6532 (-79.3832) (PyFloat 0.25) 2;
            CountryResult (JStr "Unknown") "" (PyFloat 0.8) 1;
            CountryResult JNull "" (PyFloat 1) 1]
           (JStr "Toronto")).
  - exact Examples.sample_run.
  - vm_compute. reflexivity.
  - vm_compute. reflexivity.
  - simpl. auto.
  - vm_compute. reflexivity.
  - simpl. auto.
  - vm_compute. reflexivity.
Defined.

Lemma entries_are_well_formed_witness :
  let e := CityResult (JStr "Toronto") 43.6532 (-79.3832) (PyFloat 0.25) 2 in
  1 <= entry_count e <= Z.of_nat (List.length (sentiment_data (fresh sample_records))) /\
  (exists x, entry_sentiment e = PyFloat x) /\
  hashable (entry_region e) = true.
Proof.
  destruct (RoutineFacts.entries_are_well_formed float_of_ascii (fresh sample_records)
              sample_output
              (CityResult (JStr "Toronto") 43.6532 (-79.3832) (PyFloat 0.25) 2))
    as (H1 & H2 & H3 & _).
  - exact Examples.sample_run.
  - simpl. auto.
  - cbv zeta. auto.
Defined.

Lemma count_is_length_of_filtered_list_witness :
  let kept := filter (has_region "Toronto") sample_records in
  get_sentiment_trends sample_dir (Some "Toronto") = Returned (JArr (objects kept)) /\
  (forall e, In e sample_output -> entry_region e = JStr "Toronto" ->
     kept <> [] /\ entry_count e = Z.of_nat (List.length kept)) /\
  (kept <> [] -> exists e, In e sample_output /\ entry_region e = JStr "Toronto").
Proof.
  apply (ApiFacts.count_is_length_of_filtered_list float_of_ascii sample_dir
           [("popularity", JArr (objects sample_popularity));
            ("sentiment", JArr (objects sample_records))]
           sample_records sample_output "Toronto").
  - exact sample_dir_loads.
  - reflexivity.
  - vm_compute. reflexivity.
  - discriminate.
  - discriminate.
Defined.

Lemma tables_do_not_overlap_witness :
  Dict.mem (JStr "Toronto") country_codes = false.
Proof.
  apply (proj1 RoutineFacts.tables_do_not_overlap (JStr "Toronto")).
  vm_compute. reflexivity.
Defined.

End ApiExamples.
